(** * FileConverter bot: conversion orchestration

    A shallow embedding of the Python sources

      - [app/keyboards/inline.py]      (capability registry, format keyboard)
      - [app/handlers/files.py]        (reception of a file, [process_file])
      - [app/handlers/callbacks.py]    (format selection, [handle_conversion])
      - [app/utils/converter_logic.py] (type converters, dispatcher, cleanup)

    Python [str] values are modelled as [string] (sequences of 8-bit
    characters); [lower] is the ASCII part of [str.lower].  Dictionaries with
    literal contents are association lists in source order; the per-user FSM
    storage and the temporary directory are finite maps.

    Handlers are computations over a world (FSM storage, host, log of
    Telegram calls) that end normally or with an exception.  The external
    engines, the download and the success of each Telegram call are
    parameters of the environment, so that a statement proved for every
    environment covers every way a handler can be left.  The texts sent to
    the user are kept as tagged notices; logging is left out. *)

From Stdlib Require Import ZArith List Ascii String Lia Bool.
From Stdlib.Strings Require Import Byte.
From stdpp Require Import base decidable option list strings pretty gmap.

Open Scope string_scope.
Open Scope Z_scope.

(** ** Python string and dictionary primitives *)

Module Py.

Definition lower_ascii (c : ascii) : ascii :=
  let n := N_of_ascii c in
  if ((65 <=? n) && (n <=? 90))%N then ascii_of_N (n + 32) else c.

(** [str.lower()] on ASCII strings: the letters A to Z are mapped, every
    other character is kept.  Python also maps letters outside ASCII (the
    Kelvin sign to k, for one), so a statement that depends on the result for
    an arbitrary string carries the hypothesis [is_ascii]. *)
Fixpoint lower (s : string) : string :=
  match s with
  | EmptyString => EmptyString
  | String c r => String (lower_ascii c) (lower r)
  end.

(** [str.isascii()] *)
Fixpoint is_ascii (s : string) : bool :=
  match s with
  | EmptyString => true
  | String c r => (N_of_ascii c <? 128)%N && is_ascii r
  end.

(** [str.upper()] *)
Definition upper_ascii (c : ascii) : ascii :=
  let n := N_of_ascii c in
  if ((97 <=? n) && (n <=? 122))%N then ascii_of_N (n - 32) else c.

Fixpoint upper (s : string) : string :=
  match s with
  | EmptyString => EmptyString
  | String c r => String (upper_ascii c) (upper r)
  end.

(** [str.lstrip(c)] for a one-character argument *)
Fixpoint lstrip (c : ascii) (s : string) : string :=
  match s with
  | String d r => if Ascii.eqb c d then lstrip c r else s
  | EmptyString => EmptyString
  end.

(** [s[:n]] for [n >= 0] *)
Fixpoint take (n : nat) (s : string) : string :=
  match n, s with
  | S k, String c r => String c (take k r)
  | _, _ => EmptyString
  end.

(** [str.split(sep)] for a one-character separator: the current field is
    accumulated in [cur]; the result is never empty. *)
Fixpoint split_go (sep : ascii) (cur : string) (s : string) : list string :=
  match s with
  | EmptyString => [cur]
  | String c r =>
      if Ascii.eqb c sep then cur :: split_go sep EmptyString r
      else split_go sep (cur ++ String c EmptyString) r
  end.

Definition split (sep : ascii) (s : string) : list string :=
  split_go sep EmptyString s.

(** [c in s] for a one-character [c] *)
Fixpoint contains (c : ascii) (s : string) : bool :=
  match s with
  | EmptyString => false
  | String d r => Ascii.eqb c d || contains c r
  end.

(** [s.startswith("/")] *)
Definition is_absolute (s : string) : bool :=
  match s with
  | String c _ => Ascii.eqb c "/"
  | EmptyString => false
  end.

(** [x in l] for a list, tuple or set of strings *)
Definition mem (x : string) (l : list string) : bool :=
  existsb (String.eqb x) l.

(** A dictionary literal, in source order. *)
Definition dict (V : Type) : Type := list (string * V).

Fixpoint dict_get {V : Type} (d : dict V) (k : string) : option V :=
  match d with
  | [] => None
  | (k', v) :: r => if String.eqb k k' then Some v else dict_get r k
  end.

(** [d.get(k, dflt)] *)
Definition dict_get_or {V : Type} (d : dict V) (k : string) (dflt : V) : V :=
  match dict_get d k with Some v => v | None => dflt end.

Definition dict_keys {V : Type} (d : dict V) : list string := map fst d.

(** [str(n)] / [f"{n}"] for an [int] *)
Definition str_int (n : Z) : string := pretty n.

(** [pathlib.PurePosixPath(p).name]: the last component that is neither
    empty nor ["."]. *)
Definition path_name (p : string) : string :=
  List.last (List.filter (fun c => negb (String.eqb c "" || String.eqb c "."))
                    (split "/" p)) "".

(** Position of the last ["."] of [s], counted from the left. *)
Fixpoint rfind_dot (s : string) : option nat :=
  match s with
  | EmptyString => None
  | String c r =>
      match rfind_dot r with
      | Some i => Some (S i)
      | None => if Ascii.eqb c "." then Some O else None
      end
  end.

Fixpoint drop (n : nat) (s : string) : string :=
  match n, s with
  | S k, String _ r => drop k r
  | _, _ => s
  end.

(** [Path(p).suffix]: [name[i:]] when [0 < i < len(name) - 1] for the last
    dot [i] of the name, else the empty string. *)
Definition path_suffix (p : string) : string :=
  let name := path_name p in
  match rfind_dot name with
  | Some i =>
      if (Nat.ltb 0 i && Nat.ltb i (String.length name - 1))%bool
      then drop i name else ""
  | None => ""
  end.

(** [Path(p).stem] *)
Definition path_stem (p : string) : string :=
  let name := path_name p in
  match rfind_dot name with
  | Some i =>
      if (Nat.ltb 0 i && Nat.ltb i (String.length name - 1))%bool
      then take i name else name
  | None => name
  end.

(** [os.path.join(a, b)] on POSIX *)
Definition path_join (a b : string) : string :=
  if is_absolute b then b
  else if String.eqb a "" then b
  else if Ascii.eqb (List.last (list_ascii_of_string a) "a"%char) "/" then a ++ b
  else a ++ "/" ++ b.

End Py.

(** ** [app/keyboards/inline.py] *)

Module Inline.
Import Py.

Definition FILE_TYPE_MAP : dict string :=
  [ ("jpg", "image"); ("jpeg", "image"); ("png", "image");
    ("webp", "image"); ("bmp", "image"); ("heic", "image");
    ("docx", "document"); ("doc", "document"); ("pdf", "pdf");
    ("txt", "text"); ("rtf", "document"); ("odt", "document");
    ("xlsx", "spreadsheet"); ("xls", "spreadsheet"); ("csv", "spreadsheet");
    ("mp3", "audio"); ("ogg", "audio"); ("wav", "audio");
    ("flac", "audio"); ("oga", "audio");
    ("mp4", "video"); ("avi", "video"); ("mov", "video"); ("mkv", "video") ].

Record options : Type := {
  formats : list string;
  emoji : string;
  names : dict string
}.

Definition CONVERSION_OPTIONS : dict options :=
  [ ("image",
     {| formats := ["jpg"; "png"; "webp"; "bmp"; "pdf"];
        emoji := "🖼️";
        names := [("jpg", "JPEG"); ("png", "PNG"); ("webp", "WebP");
                  ("bmp", "BMP"); ("pdf", "PDF")] |});
    ("document",
     {| formats := ["pdf"; "txt"; "docx"];
        emoji := "📄";
        names := [("pdf", "PDF"); ("txt", "TXT"); ("docx", "DOCX")] |});
    ("pdf",
     {| formats := ["txt"; "docx"];
        emoji := "📑";
        names := [("txt", "TXT"); ("docx", "DOCX")] |});
    ("text",
     {| formats := ["pdf"; "docx"];
        emoji := "📝";
        names := [("pdf", "PDF"); ("docx", "DOCX")] |});
    ("spreadsheet",
     {| formats := ["csv"; "xlsx"];
        emoji := "📊";
        names := [("csv", "CSV"); ("xlsx", "Excel XLSX")] |});
    ("audio",
     {| formats := ["mp3"; "ogg"; "wav"; "flac"];
        emoji := "🎵";
        names := [("mp3", "MP3"); ("ogg", "OGG"); ("wav", "WAV");
                  ("flac", "FLAC")] |});
    ("video",
     {| formats := ["mp4"; "avi"; "mkv"];
        emoji := "🎬";
        names := [("mp4", "MP4"); ("avi", "AVI"); ("mkv", "MKV")] |}) ].

Definition get_file_type (extension : string) : option string :=
  dict_get FILE_TYPE_MAP (lower extension).

Definition get_supported_extensions : list string := dict_keys FILE_TYPE_MAP.

Record button : Type := {
  text : string;
  callback_data : string
}.

(** An [InlineKeyboardMarkup]: the buttons in the order they were added and
    the row sizes handed to [adjust]. *)
Record keyboard : Type := {
  buttons : list button;
  row_sizes : list nat
}.

(** The set [exclude_formats] of [create_format_keyboard]. *)
Definition exclude_formats (ext : string) : list string :=
  if mem ext ["jpg"; "jpeg"] then ["jpg"; "jpeg"] else [ext].

(** The list [available_formats] of [create_format_keyboard]. *)
Definition keyboard_formats (ext : string) (opts : options) : list string :=
  List.filter (fun fmt => negb (mem fmt (exclude_formats ext))) (formats opts).

Definition format_button (opts : options) (target_format : string) : button :=
  {| text := emoji opts ++ " " ++
             dict_get_or (names opts) target_format (upper target_format);
     callback_data := "cvt:" ++ target_format |}.

Definition cancel_button : button :=
  {| text := "❌ Отмена"; callback_data := "cancel" |}.

Definition create_format_keyboard (file_extension file_id : string)
  : option keyboard :=
  let ext := lstrip "." (lower file_extension) in
  match get_file_type ext with
  | None => None
  | Some file_type =>
      if String.eqb file_type "" then None else
      match dict_get CONVERSION_OPTIONS file_type with
      | None => None
      | Some opts =>
          Some {| buttons := map (format_button opts) (keyboard_formats ext opts)
                             ++ [cancel_button];
                  row_sizes := [2; 2; 2; 1]%nat |}
      end
  end.

Record conversion_info : Type := {
  info_type : string;
  info_emoji : string;
  available_formats : list string;
  format_names : dict string
}.

Definition get_conversion_info (file_extension : string)
  : option conversion_info :=
  let ext := lstrip "." (lower file_extension) in
  match get_file_type ext with
  | None => None
  | Some file_type =>
      if String.eqb file_type "" then None else
      match dict_get CONVERSION_OPTIONS file_type with
      | None => None
      | Some opts =>
          let available :=
            List.filter (fun fmt => negb (String.eqb fmt ext)) (formats opts) in
          Some {| info_type := file_type;
                  info_emoji := emoji opts;
                  available_formats := available;
                  format_names :=
                    map (fun fmt =>
                           (fmt, dict_get_or (names opts) fmt (upper fmt)))
                        available |}
      end
  end.

(** The targets offered by a keyboard: the payloads of its [cvt:] buttons. *)
Definition keyboard_targets (kb : keyboard) : list string :=
  omap (fun b => match split ":" (callback_data b) with
                 | [tag; t] => if String.eqb tag "cvt" then Some t else None
                 | _ => None
                 end) (buttons kb).

End Inline.

(** ** [app/utils/converter_logic.py] *)

Module Converter.
Import Py.

(** Exceptions that cross a function boundary of the bot.  [Exception] stands
    for any exception class not named in the sources. *)
Inductive exn : Type :=
| ConversionError (msg : string)
| UnicodeDecodeError (msg : string)
| FfmpegError (stderr : option (list byte))
| TelegramError (msg : string)
| Exception (msg : string).

(** [str(e)] *)
Definition exn_str (e : exn) : string :=
  match e with
  | ConversionError m | UnicodeDecodeError m | TelegramError m | Exception m => m
  | FfmpegError _ => "ffmpeg error (see stderr output for detail)"
  end.

Inductive res (A : Type) : Type :=
| Ok (a : A)
| Raise (e : exn).
Arguments Ok {A} a.
Arguments Raise {A} e.

(** The temporary directory: path to contents. *)
Abbreviation fs := (gmap string (list byte)).

(** Literal values passed as keyword arguments. *)
Inductive pyval : Type :=
| PInt (n : Z)
| PBool (b : bool)
| PStr (s : string)
| PNone.

(** *** Pillow images, as the expressions [convert_image] builds *)

#[warnings="-register-all"]
Inductive image : Type :=
| Opened (path mode : string) (size : nat * nat)
| New (mode : string) (size : nat * nat) (color : Z * Z * Z)
| Convert (img : image) (mode : string)
| LastBand (img : image)
| Paste (background img : image) (mask : option image).

Fixpoint mode (i : image) : string :=
  match i with
  | Opened _ m _ => m
  | New m _ _ => m
  | Convert _ m => m
  | LastBand _ => "L"
  | Paste bg _ _ => mode bg
  end.

Fixpoint size (i : image) : nat * nat :=
  match i with
  | Opened _ _ s => s
  | New _ s _ => s
  | Convert j _ => size j
  | LastBand j => size j
  | Paste bg _ _ => size bg
  end.

(** *** Calls into the external engines *)

Definition text : Type := list Z.
Definition frame : Type := list (list text).

Inductive engine_call : Type :=
| PilSave (img : image) (output_path pil_format : string)
          (save_kwargs : dict pyval)
| PydubExport (input_path input_ext output_path : string)
              (export_kwargs : dict pyval)
| FfmpegRun (input_path output_path vcodec acodec : string)
            (flags : dict pyval)
| PandocConvert (input_path output_format output_path : string)
                (extra_args : option (list string))
| ToCsv (df : frame) (output_path : string) (kwargs : dict pyval)
| ToExcel (df : frame) (output_path : string) (kwargs : dict pyval).

(** The machine the converters run on: the temporary directory and, as a
    trace, the engine calls issued so far (the work handed to the worker
    pool). *)
Record host : Type := {
  files : fs;
  engine_log : list engine_call
}.

(** The external collaborators.  [pil_open] identifies an image from its
    bytes (mode and size); [excel_parse] and [csv_parse] are pandas' parsers,
    the latter once the bytes are decoded, and answer with a frame or with
    the message of their parser error; [run] is the effect of an engine call
    on the temporary directory together with the exception it raises, if
    any. *)
Record engines : Type := {
  pil_open : list byte -> option (string * (nat * nat));
  excel_parse : list byte -> frame + string;
  csv_parse : text -> frame + string;
  run : engine_call -> fs -> fs * option exn
}.

Definition parsed (r : frame + string) : res frame :=
  match r with
  | inl df => Ok df
  | inr msg => Raise (Exception msg)
  end.

(** [open(path, 'rb').read()] *)
Definition read_bytes (path : string) (d : host) : res (list byte) :=
  match files d !! path with
  | Some bytes => Ok bytes
  | None => Raise (Exception "No such file or directory")
  end.

(** *** [convert_image] *)

(** The body of [with Image.open(input_path) as img] up to the [save]. *)
Definition prepare_image (target_format : string) (img : image) : image :=
  if mem (lower target_format) ["jpg"; "jpeg"; "pdf"] then
    if mem (mode img) ["RGBA"; "P"; "LA"] then
      let background := New "RGB" (size img) (255, 255, 255) in
      let img := if String.eqb (mode img) "P" then Convert img "RGBA" else img in
      Paste background img
            (if String.eqb (mode img) "RGBA" then Some (LastBand img) else None)
    else if negb (String.eqb (mode img) "RGB") then Convert img "RGB"
    else img
  else img.

Definition format_map : dict string :=
  [ ("jpg", "JPEG"); ("jpeg", "JPEG"); ("png", "PNG");
    ("webp", "WEBP"); ("bmp", "BMP"); ("pdf", "PDF") ].

Definition save_kwargs_for (pil_format : string) : dict pyval :=
  if String.eqb pil_format "JPEG" then [("quality", PInt 95); ("optimize", PBool true)]
  else if String.eqb pil_format "PNG" then [("optimize", PBool true)]
  else if String.eqb pil_format "WEBP" then [("quality", PInt 90)]
  else [].

(** The inner [_convert] of [convert_image]: the engine call it ends in. *)
Definition image_call (input_path output_path target_format : string)
    (opened : string * (nat * nat)) : engine_call :=
  let img := prepare_image target_format
               (Opened input_path (fst opened) (snd opened)) in
  let pil_format :=
    dict_get_or format_map (lower target_format) (upper target_format) in
  PilSave img output_path pil_format (save_kwargs_for pil_format).

(** [try: ... except Exception as e: raise ConversionError(prefix + str(e))] *)
Definition wrap_error {A : Type} (prefix : string) (r : res A) : res A :=
  match r with
  | Ok a => Ok a
  | Raise e => Raise (ConversionError (prefix ++ exn_str e))
  end.

(** [run_in_executor(func)]: the call is awaited, so for the caller it is
    the call itself; the worker thread it runs on is not modelled. *)
Definition run_in_executor {A : Type} (func : host -> host * res A)
  : host -> host * res A := func.

Definition run_call (E : engines) (c : engine_call) (output_path : string)
    (d : host) : host * res string :=
  let '(f', r) := run E c (files d) in
  ({| files := f'; engine_log := engine_log d ++ [c] |},
   match r with
   | None => Ok output_path
   | Some e => Raise e
   end).

Definition convert_image (E : engines)
    (input_path output_path target_format : string) (d : host)
  : host * res string :=
  let _convert (d : host) :=
    match read_bytes input_path d with
    | Raise e => (d, Raise e)
    | Ok bytes =>
        match pil_open E bytes with
        | None => (d, Raise (Exception "cannot identify image file"))
        | Some opened =>
            run_call E (image_call input_path output_path target_format opened)
                     output_path d
        end
    end in
  let '(d', r) := run_in_executor _convert d in
  (d', wrap_error "Не удалось конвертировать изображение: " r).

(** *** [convert_audio] *)

Definition export_kwargs_for (target_format : string) : dict pyval :=
  if String.eqb target_format "mp3" then
    [("format", PStr "mp3"); ("bitrate", PStr "320k")]
  else if String.eqb target_format "ogg" then
    [("format", PStr "ogg"); ("codec", PStr "libvorbis")]
  else if String.eqb target_format "wav" then [("format", PStr "wav")]
  else if String.eqb target_format "flac" then [("format", PStr "flac")]
  else [("format", PStr target_format)].

Definition audio_call (input_path output_path target_format : string)
  : engine_call :=
  let input_ext := lstrip "." (lower (path_suffix input_path)) in
  PydubExport input_path input_ext output_path (export_kwargs_for target_format).

Definition convert_audio (E : engines)
    (input_path output_path target_format : string) (d : host)
  : host * res string :=
  let _convert :=
    run_call E (audio_call input_path output_path target_format) output_path in
  let '(d', r) := run_in_executor _convert d in
  (d', wrap_error "Не удалось конвертировать аудио: " r).

(** *** [convert_document] *)

Definition pandoc_format_map : dict string :=
  [ ("docx", "docx"); ("doc", "doc"); ("pdf", "pdf");
    ("txt", "plain"); ("rtf", "rtf"); ("odt", "odt") ].

Definition document_call (input_path output_path target_format : string)
  : engine_call :=
  let output_format := dict_get_or pandoc_format_map target_format target_format in
  let extra_args :=
    if String.eqb target_format "pdf" then ["--pdf-engine=xelatex"] else [] in
  PandocConvert input_path output_format output_path
                (match extra_args with [] => None | _ => Some extra_args end).

Definition convert_document (E : engines)
    (input_path output_path target_format : string) (d : host)
  : host * res string :=
  let _convert :=
    run_call E (document_call input_path output_path target_format)
             output_path in
  let '(d', r) := run_in_executor _convert d in
  (d', wrap_error "Не удалось конвертировать документ: " r).

(** *** Text codecs used by [pandas.read_csv] *)

Definition byte_val (b : byte) : Z := Z.of_N (Byte.to_N b).

Definition is_cont (b : Z) : bool := (128 <=? b) && (b <=? 191).

(** Strict UTF-8 ([errors = false]) or UTF-8 with the undecodable bytes
    dropped ([errors = true], Python's ['ignore'] handler).  [None] is a
    [UnicodeDecodeError]. *)
Fixpoint utf8_decode (ignore : bool) (bs : list Z) : option text :=
  match bs with
  | [] => Some []
  | b0 :: r0 =>
      let bad := if ignore then utf8_decode ignore r0 else None in
      let emit (ok : bool) (cp : Z) (rest : option text) :=
        if ok then option_map (cons cp) rest else bad in
      if b0 <? 128 then option_map (cons b0) (utf8_decode ignore r0)
      else if (194 <=? b0) && (b0 <=? 223) then
        match r0 with
        | b1 :: r1 =>
            emit (is_cont b1) ((b0 - 192) * 64 + (b1 - 128))
                 (utf8_decode ignore r1)
        | _ => bad
        end
      else if (224 <=? b0) && (b0 <=? 239) then
        match r0 with
        | b1 :: b2 :: r2 =>
            let cp := (b0 - 224) * 4096 + (b1 - 128) * 64 + (b2 - 128) in
            emit (is_cont b1 && is_cont b2 && (2048 <=? cp)
                  && negb ((55296 <=? cp) && (cp <=? 57343)))
                 cp (utf8_decode ignore r2)
        | _ => bad
        end
      else if (240 <=? b0) && (b0 <=? 244) then
        match r0 with
        | b1 :: b2 :: b3 :: r3 =>
            let cp := (b0 - 240) * 262144 + (b1 - 128) * 4096
                      + (b2 - 128) * 64 + (b3 - 128) in
            emit (is_cont b1 && is_cont b2 && is_cont b3
                  && (65536 <=? cp) && (cp <=? 1114111))
                 cp (utf8_decode ignore r3)
        | _ => bad
        end
      else bad
  end.

(** The upper half of code page 1251, bytes 0x80 to 0xBF; 0 marks the one
    undefined position, 0x98. *)
Definition cp1251_table : list Z :=
  [ 1026; 1027; 8218; 1107; 8222; 8230; 8224; 8225;
    8364; 8240; 1033; 8249; 1034; 1036; 1035; 1039;
    1106; 8216; 8217; 8220; 8221; 8226; 8211; 8212;
    0; 8482; 1113; 8250; 1114; 1116; 1115; 1119;
    160; 1038; 1118; 1032; 164; 1168; 166; 167;
    1025; 169; 1028; 171; 172; 173; 174; 1031;
    176; 177; 1030; 1110; 1169; 181; 182; 183;
    1105; 8470; 1108; 187; 1112; 1029; 1109; 1111 ].

Definition cp1251_char (b : Z) : option Z :=
  if b <? 128 then Some b
  else if 192 <=? b then Some (1040 + (b - 192))
  else match nth_error cp1251_table (Z.to_nat (b - 128)) with
       | Some 0 | None => None
       | Some cp => Some cp
       end.

Fixpoint cp1251_decode (bs : list Z) : option text :=
  match bs with
  | [] => Some []
  | b :: r =>
      match cp1251_char b with
      | Some cp => option_map (cons cp) (cp1251_decode r)
      | None => None
      end
  end.

Definition latin1_decode (bs : list Z) : option text := Some bs.

(** [bytes.decode(encoding)] for the encodings the bot names. *)
Definition decode (encoding : string) (bs : list byte) : res text :=
  let zs := map byte_val bs in
  let r :=
    if String.eqb encoding "utf-8" then utf8_decode false zs
    else if String.eqb encoding "cp1251" then cp1251_decode zs
    else if String.eqb encoding "latin-1" then latin1_decode zs
    else None in
  match r with
  | Some t => Ok t
  | None =>
      Raise (UnicodeDecodeError ("'" ++ encoding ++ "' codec can't decode bytes"))
  end.

(** [pd.read_csv(input_path, encoding=encoding)]: the file is opened, its
    bytes are decoded (a failure is a [UnicodeDecodeError]) and the text is
    parsed. *)
Definition read_csv (E : engines) (d : host) (input_path encoding : string)
  : res frame :=
  match read_bytes input_path d with
  | Raise e => Raise e
  | Ok bytes =>
      match decode encoding bytes with
      | Ok t => parsed (csv_parse E t)
      | Raise e => Raise e
      end
  end.

(** [pd.read_csv(input_path, encoding='utf-8', errors='ignore')], the [else]
    clause of the encoding loop. *)
Definition read_csv_ignore (E : engines) (d : host) (input_path : string)
  : res frame :=
  match read_bytes input_path d with
  | Raise e => Raise e
  | Ok bytes =>
      match utf8_decode true (map byte_val bytes) with
      | Some t => parsed (csv_parse E t)
      | None => Raise (UnicodeDecodeError "'utf-8' codec can't decode bytes")
      end
  end.

(** [pd.read_excel(input_path)] *)
Definition read_excel (E : engines) (d : host) (input_path : string)
  : res frame :=
  match read_bytes input_path d with
  | Raise e => Raise e
  | Ok bytes => parsed (excel_parse E bytes)
  end.

(** How the [for encoding in [...]: try ... break ... else ...] statement was
    left: by [break] after [attempt] tries with [encoding], through its
    [else] clause, or by an exception other than [UnicodeDecodeError]. *)
Inductive loop_exit : Type :=
| Break (attempt : nat) (encoding : string) (df : frame)
| Else (r : res frame)
| Escaped (attempt : nat) (e : exn).

Fixpoint csv_loop (E : engines) (d : host) (input_path : string)
    (attempt : nat) (encodings : list string) : loop_exit :=
  match encodings with
  | [] => Else (read_csv_ignore E d input_path)
  | encoding :: rest =>
      match read_csv E d input_path encoding with
      | Ok df => Break (S attempt) encoding df
      | Raise (UnicodeDecodeError _) =>
          csv_loop E d input_path (S attempt) rest
      | Raise e => Escaped (S attempt) e
      end
  end.

Definition csv_encodings : list string := ["utf-8"; "cp1251"; "latin-1"].

Definition loop_result (x : loop_exit) : res frame :=
  match x with
  | Break _ _ df => Ok df
  | Else r => r
  | Escaped _ e => Raise e
  end.

(** *** [convert_video] *)

Record codecs : Type := { vcodec : string; acodec : string }.

Definition codec_settings : dict codecs :=
  [ ("mp4", {| vcodec := "libx264"; acodec := "aac" |});
    ("avi", {| vcodec := "mpeg4"; acodec := "mp3" |});
    ("mkv", {| vcodec := "libx264"; acodec := "aac" |}) ].

Definition video_settings (target_format : string) : codecs :=
  dict_get_or codec_settings target_format
              {| vcodec := "copy"; acodec := "copy" |}.

Definition video_call (input_path output_path target_format : string)
  : engine_call :=
  let settings := video_settings target_format in
  FfmpegRun input_path output_path (vcodec settings) (acodec settings)
            [("y", PNone)].

(** The clause [except ffmpeg.Error as e]: the log line is built from
    [e.stderr.decode() if e.stderr else str(e)] before the conversion error
    is raised, so a non-empty [stderr] that is not valid UTF-8 makes the
    clause itself raise [UnicodeDecodeError], which no sibling clause
    catches. *)
Definition ffmpeg_error (stderr : option (list byte)) : res string :=
  match stderr with
  | Some (b :: bs) =>
      match utf8_decode false (map byte_val (b :: bs)) with
      | Some _ =>
          Raise (ConversionError "Не удалось конвертировать видео: ошибка ffmpeg")
      | None =>
          Raise (UnicodeDecodeError "'utf-8' codec can't decode bytes")
      end
  | _ => Raise (ConversionError "Не удалось конвертировать видео: ошибка ffmpeg")
  end.

Definition convert_video (E : engines)
    (input_path output_path target_format : string) (d : host)
  : host * res string :=
  let _convert :=
    run_call E (video_call input_path output_path target_format) output_path in
  let '(d', r) := run_in_executor _convert d in
  (d', match r with
       | Ok p => Ok p
       | Raise (FfmpegError stderr) => ffmpeg_error stderr
       | Raise e =>
           Raise (ConversionError ("Не удалось конвертировать видео: " ++ exn_str e))
       end).

(** *** [convert_spreadsheet] *)

Definition read_table (E : engines) (input_path : string) (d : host)
  : res frame :=
  let input_ext := lstrip "." (lower (path_suffix input_path)) in
  if mem input_ext ["xlsx"; "xls"] then read_excel E d input_path
  else if String.eqb input_ext "csv" then
    loop_result (csv_loop E d input_path 0 csv_encodings)
  else Raise (ConversionError ("Неподдерживаемый формат таблицы: " ++ input_ext)).

Definition convert_spreadsheet (E : engines)
    (input_path output_path target_format : string) (d : host)
  : host * res string :=
  let _convert (d : host) :=
    match read_table E input_path d with
    | Raise e => (d, Raise e)
    | Ok df =>
        if String.eqb target_format "csv" then
          run_call E (ToCsv df output_path
                            [("index", PBool false); ("encoding", PStr "utf-8")])
                   output_path d
        else if String.eqb target_format "xlsx" then
          run_call E (ToExcel df output_path
                              [("index", PBool false); ("engine", PStr "openpyxl")])
                   output_path d
        else
          (d, Raise (ConversionError
                       ("Неподдерживаемый целевой формат: " ++ target_format)))
    end in
  let '(d', r) := run_in_executor _convert d in
  (d', wrap_error "Не удалось конвертировать таблицу: " r).

(** *** [convert_file], the dispatcher *)

(** [file_type == s] for the optional result of [get_file_type] *)
Definition is_type (file_type : option string) (s : string) : bool :=
  match file_type with
  | Some t => String.eqb t s
  | None => false
  end.

Definition convert_file (E : engines)
    (input_path output_path source_format target_format : string) (d : host)
  : host * res string :=
  let file_type := Inline.get_file_type source_format in
  if is_type file_type "image" then
    convert_image E input_path output_path target_format d
  else if is_type file_type "audio" then
    convert_audio E input_path output_path target_format d
  else if is_type file_type "video" then
    convert_video E input_path output_path target_format d
  else if existsb (is_type file_type) ["document"; "pdf"; "text"] then
    convert_document E input_path output_path target_format d
  else if is_type file_type "spreadsheet" then
    convert_spreadsheet E input_path output_path target_format d
  else
    (d, Raise (ConversionError ("Неподдерживаемый тип файла: " ++ source_format))).

(** *** Temporary files *)

Definition save_file_from_bytes (data : list byte) (path : string) (d : fs)
  : fs * res string :=
  (<[path := data]> d, Ok path).

(** [read_file_bytes(path)]: the content of the file; opening a path that
    is not there raises. *)
Definition read_file_bytes (path : string) (d : fs) : fs * res (list byte) :=
  match d !! path with
  | Some data => (d, Ok data)
  | None => (d, Raise (Exception "No such file or directory"))
  end.

(** [os.path.exists] *)
Definition exists_ (path : string) (d : fs) : bool :=
  match d !! path with Some _ => true | None => false end.

(** [os.remove]: fails on a path that is not there. *)
Definition os_remove (path : string) (d : fs) : fs * res unit :=
  match d !! path with
  | Some _ => (delete path d, Ok tt)
  | None => (d, Raise (Exception "No such file or directory"))
  end.

(** [cleanup_files] over its variadic [paths]: every path is tried; a failing removal is
    swallowed by the [except] clause and the loop goes on. *)
Fixpoint cleanup_files (paths : list string) (d : fs) : fs :=
  match paths with
  | [] => d
  | path :: rest =>
      let d' :=
        if exists_ path d then
          match os_remove path d with
          | (d1, Ok _) => d1
          | (d1, Raise _) => d1
          end
        else d in
      cleanup_files rest d'
  end.

End Converter.

(** ** The bot's world: FSM storage, host and Telegram *)

Module Bot.
Import Py Converter.

(** An [FSMContext] slot: the FSM state and the data dictionary. *)
Record session : Type := {
  state : option string;
  data : gmap string string
}.

Definition Idle : session := {| state := None; data := ∅ |}.

(** The texts the handlers send. *)
Inductive notice : Type :=
| TooBig (file_size max_mb : Z)
| Unsupported (file_name : string)
| NoFormats (file_name : string)
| MenuError
| FileReceived (emoji file_name : string) (file_size : Z)
| Cancelled
| InvalidData
| FileInfoLost
| Loading
| Converting (status_text : string)
| Uploading
| Done (file_name output_filename : string)
| ConversionFailed (detail : string)
| Unexpected.

(** Calls of the Telegram Bot API, in the order they are made. *)
Inductive tg_call : Type :=
| MessageAnswer (user : Z) (n : notice) (reply_markup : option Inline.keyboard)
| CallbackAnswer (user : Z) (text : string) (show_alert : bool)
| EditText (user : Z) (n : notice)
| Download (file_id : string)
| AnswerDocument (user : Z) (document : option (list byte))
                 (filename : string) (caption : notice).

Record world : Type := {
  storage : gmap Z session;
  machine : host;
  sent : list tg_call
}.

(** What the process is started with and what it talks to.  [tg] tells which
    API calls raise, [download] is [bot.get_file] followed by
    [bot.download_file]. *)
Record env : Type := {
  eng : engines;
  temp_dir : string;
  MAX_FILE_SIZE_MB : Z;
  tg : tg_call -> option exn;
  download : string -> res (list byte)
}.

(** [MAX_FILE_SIZE = int(os.getenv("MAX_FILE_SIZE_MB", "50")) * 1024 * 1024] *)
Definition MAX_FILE_SIZE (V : env) : Z := MAX_FILE_SIZE_MB V * 1024 * 1024.

(** *** Handlers as state-and-exception computations *)

Definition M (A : Type) : Type := world -> world * res A.

Definition ret {A : Type} (a : A) : M A := fun w => (w, Ok a).

Definition raise {A : Type} (e : exn) : M A := fun w => (w, Raise e).

Definition bind {A B : Type} (m : M A) (k : A -> M B) : M B :=
  fun w => match m w with
           | (w', Ok a) => k a w'
           | (w', Raise e) => (w', Raise e)
           end.

Notation "'let*' x ':=' m 'in' k" := (bind m (fun x => k))
  (at level 10, x name, m at level 100, k at level 200).
Notation "'do' m 'then' k" := (bind m (fun _ => k))
  (at level 10, m at level 100, k at level 200).

(** [try: body except ... as e: handler e] *)
Definition try_except {A : Type} (body : M A) (handler : exn -> M A) : M A :=
  fun w => match body w with
           | (w', Ok a) => (w', Ok a)
           | (w', Raise e) => handler e w'
           end.

(** [try: body finally: final]: [final] always runs; when it raises, its
    exception replaces the outcome of [body]. *)
Definition finally {A : Type} (body : M A) (final : M unit) : M A :=
  fun w => match body w with
           | (w', r) =>
               match final w' with
               | (w'', Ok _) => (w'', r)
               | (w'', Raise e) => (w'', Raise e)
               end
           end.

Definition call (V : env) (c : tg_call) : M unit :=
  fun w =>
    ({| storage := storage w; machine := machine w; sent := sent w ++ [c] |},
     match tg V c with
     | None => Ok tt
     | Some e => Raise e
     end).

Definition get_session (uid : Z) (w : world) : session :=
  default Idle (storage w !! uid).

Definition set_session (uid : Z) (s : session) : M unit :=
  fun w =>
    ({| storage := <[uid := s]> (storage w);
        machine := machine w; sent := sent w |}, Ok tt).

(** [state.update_data] with its keyword arguments *)
Definition update_data (uid : Z) (kwargs : list (string * string)) : M unit :=
  fun w =>
    let s := get_session uid w in
    set_session uid
      {| state := state s;
         data := foldl (fun m kv => <[kv.1 := kv.2]> m) (data s) kwargs |} w.

(** [state.set_state(st)] *)
Definition set_state (uid : Z) (st : string) : M unit :=
  fun w =>
    let s := get_session uid w in
    set_session uid {| state := Some st; data := data s |} w.

(** [state.get_data()] *)
Definition get_data (uid : Z) : M (gmap string string) :=
  fun w => (w, Ok (data (get_session uid w))).

(** [state.clear()] *)
Definition clear (uid : Z) : M unit := set_session uid Idle.

(** A converter or file operation run on the host. *)
Definition on_host {A : Type} (f : host -> host * res A) : M A :=
  fun w =>
    let '(h, r) := f (machine w) in
    ({| storage := storage w; machine := h; sent := sent w |}, r).

Definition on_files {A : Type} (f : fs -> fs * res A) : M A :=
  on_host (fun h =>
             let '(d, r) := f (files h) in
             ({| files := d; engine_log := engine_log h |}, r)).

(** *** [app/handlers/files.py] *)

Definition waiting_for_format : string := "FileState:waiting_for_format".

(** [process_file] after the size check: classification of the extension,
    storing of the pending request, presentation of the keyboard. *)
Definition classify_and_offer (V : env) (uid : Z)
    (file_id file_name : string) (file_size : Z) : M unit :=
  let extension :=
    if String.eqb file_name "" then ""
    else lstrip "." (lower (path_suffix file_name)) in
  if String.eqb extension ""
     || negb (mem extension Inline.get_supported_extensions) then
    call V (MessageAnswer uid (Unsupported file_name) None)
  else
    match Inline.get_conversion_info extension with
    | None => call V (MessageAnswer uid (NoFormats file_name) None)
    | Some conversion_info =>
        match Inline.available_formats conversion_info with
        | [] => call V (MessageAnswer uid (NoFormats file_name) None)
        | _ :: _ =>
            match Inline.create_format_keyboard extension file_id with
            | None => call V (MessageAnswer uid MenuError None)
            | Some keyboard =>
                do update_data uid [("file_id", file_id);
                                    ("file_name", file_name);
                                    ("file_extension", extension)]
                then do set_state uid waiting_for_format
                then call V (MessageAnswer uid
                               (FileReceived (Inline.info_emoji conversion_info)
                                             file_name file_size)
                               (Some keyboard))
            end
        end
    end.

Definition process_file (V : env) (uid : Z)
    (file_id file_name : string) (file_size : Z) : M unit :=
  if MAX_FILE_SIZE V <? file_size then
    let max_mb := MAX_FILE_SIZE V / (1024 * 1024) in
    call V (MessageAnswer uid (TooBig file_size max_mb) None)
  else classify_and_offer V uid file_id file_name file_size.

(** [x or dflt] for an optional attribute of a Telegram object *)
Definition or_str (x : option string) (dflt : string) : string :=
  match x with
  | Some s => if String.eqb s "" then dflt else s
  | None => dflt
  end.

Definition or_int (x : option Z) (dflt : Z) : Z :=
  match x with
  | Some n => if n =? 0 then dflt else n
  | None => dflt
  end.

Definition handle_document (V : env) (uid : Z) (file_id : string)
    (file_name : option string) (file_size : option Z) : M unit :=
  process_file V uid file_id (or_str file_name "document") (or_int file_size 0).









(** *** [app/handlers/callbacks.py] *)

Definition handle_cancel (V : env) (uid : Z) : M unit :=
  do clear uid
  then do call V (EditText uid Cancelled)
  then call V (CallbackAnswer uid "Отменено" false).

(** The two temporary paths of [handle_conversion]. *)
Definition input_path_for (V : env) (uid : Z)
    (file_id source_extension : string) : string :=
  path_join (temp_dir V)
    ("input_" ++ str_int uid ++ "_" ++ take 8 file_id ++ "." ++ source_extension).

Definition output_path_for (V : env) (uid : Z)
    (file_id target_format : string) : string :=
  path_join (temp_dir V)
    ("output_" ++ str_int uid ++ "_" ++ take 8 file_id ++ "." ++ target_format).

Definition status_text_for (source_extension : string) : string :=
  let file_type := Inline.get_file_type source_extension in
  if is_type file_type "video" then
    "🎬 Конвертирую видео... Это может занять некоторое время."
  else if is_type file_type "audio" then "🎵 Конвертирую аудио..."
  else if is_type file_type "image" then "🖼️ Конвертирую изображение..."
  else if existsb (is_type file_type) ["document"; "pdf"; "text"] then
    "📄 Конвертирую документ..."
  else if is_type file_type "spreadsheet" then "📊 Конвертирую таблицу..."
  else "⚙️ Конвертирую файл...".

(** [bot.get_file] and [bot.download_file] *)
Definition fetch (V : env) (file_id : string) : M (list byte) :=
  fun w =>
    ({| storage := storage w; machine := machine w;
        sent := sent w ++ [Download file_id] |},
     download V file_id).

Record job : Type := {
  file_id : string;
  file_name : string;
  source_extension : string;
  target_format : string;
  input_path : string;
  output_filename : string;
  output_path : string
}.

(** The [try] suite of [handle_conversion]. *)
Definition attempt_body (V : env) (uid : Z) (j : job) : M unit :=
  let* file_bytes := fetch V (file_id j) in
  do on_files (save_file_from_bytes file_bytes (input_path j))
  then do call V (EditText uid (Converting (status_text_for (source_extension j))))
  then do on_host (convert_file (eng V) (input_path j) (output_path j)
                                (source_extension j) (target_format j))
  then let* present :=
         (fun w => (w, Ok (exists_ (output_path j) (files (machine w))))) in
  if negb present then raise (ConversionError "Выходной файл не был создан")
  else
    do call V (EditText uid Uploading)
    then do (fun w =>
               call V (AnswerDocument uid (files (machine w) !! output_path j)
                                      (output_filename j)
                                      (Done (file_name j) (output_filename j)))
                    w)
    then call V (EditText uid (Done (file_name j) (output_filename j))).

(** The two [except] clauses. *)
Definition attempt_handler (V : env) (uid : Z) (e : exn) : M unit :=
  match e with
  | ConversionError _ => call V (EditText uid (ConversionFailed (exn_str e)))
  | _ => call V (EditText uid Unexpected)
  end.

(** The [finally] clause. *)
Definition attempt_final (uid : Z) (j : job) : M unit :=
  do clear uid
  then on_files (fun d => (cleanup_files [input_path j; output_path j] d, Ok tt)).

(** The [try] statement of [handle_conversion]. *)
Definition conversion_attempt (V : env) (uid : Z) (j : job) : M unit :=
  finally (try_except (attempt_body V uid j) (attempt_handler V uid))
          (attempt_final uid j).

Definition make_job (V : env) (uid : Z)
    (file_id file_name source_extension target_format : string) : job :=
  {| file_id := file_id;
     file_name := file_name;
     source_extension := source_extension;
     target_format := target_format;
     input_path := input_path_for V uid file_id source_extension;
     output_filename := path_stem file_name ++ "." ++ target_format;
     output_path := output_path_for V uid file_id target_format |}.

Definition handle_conversion (V : env) (uid : Z) (callback_data : string)
  : M unit :=
  do call V (CallbackAnswer uid "⏳ Начинаю конвертацию..." false)
  then
  let parts := split ":" callback_data in
  if negb (Nat.eqb (length parts) 2) then
    do call V (EditText uid InvalidData)
    then clear uid
  else
    let target_format := nth 1 parts "" in
    let* data := get_data uid in
    let file_id := default "" (data !! "file_id") in
    let file_name := default "file" (data !! "file_name") in
    let source_extension := default "" (data !! "file_extension") in
    if String.eqb source_extension "" || String.eqb file_id "" then
      do call V (EditText uid FileInfoLost)
      then clear uid
    else
      do call V (EditText uid Loading)
      then conversion_attempt V uid
             (make_job V uid file_id file_name source_extension target_format).

Definition handle_unknown_callback (V : env) (uid : Z) : M unit :=
  call V (CallbackAnswer uid "⚠️ Эта кнопка устарела. Отправьте файл заново." true).

(** The router of callback queries: the filters are tried in the order the
    handlers are registered. *)
Definition on_callback (V : env) (uid : Z) (callback_data : string) : M unit :=
  if String.eqb callback_data "cancel" then handle_cancel V uid
  else if String.prefix "cvt:" callback_data then
    handle_conversion V uid callback_data
  else handle_unknown_callback V uid.

End Bot.

(** ** Vocabulary of the specification *)

Module Spec.
Import Py Bot.

(** The failure kinds of the specification. *)
Inductive failure : Type :=
| SizeExceeded
| UnsupportedFormat
| StaleSelection
| ToolFailure
| UnexpectedFault.

(** The failure kind a notice of the bot reports, if any. *)
Definition failure_of (n : notice) : option failure :=
  match n with
  | TooBig _ _ => Some SizeExceeded
  | Unsupported _ | NoFormats _ | MenuError => Some UnsupportedFormat
  | InvalidData | FileInfoLost => Some StaleSelection
  | ConversionFailed _ => Some ToolFailure
  | Unexpected => Some UnexpectedFault
  | FileReceived _ _ _ | Cancelled | Loading | Converting _
  | Uploading | Done _ _ => None
  end.

Definition notice_of (c : tg_call) : option notice :=
  match c with
  | MessageAnswer _ n _ | EditText _ n => Some n
  | AnswerDocument _ _ _ n => Some n
  | CallbackAnswer _ _ _ | Download _ => None
  end.

(** The failures reported by a sequence of API calls. *)
Definition failures (l : list tg_call) : list failure :=
  omap (fun c => n ← notice_of c; failure_of n) l.

(** The API calls a handler run adds to the log, and the failures they
    report. *)
Definition calls_of (m : M unit) (w : world) : list tg_call :=
  List.skipn (length (sent w)) (sent (fst (m w))).

Definition reported (m : M unit) (w : world) : list failure :=
  failures (calls_of m w).

(** The exit of the encoding loop once the text decoded at [attempt] with
    [encoding] has gone to the parser. *)
Definition parsed_exit (attempt : nat) (encoding : string)
    (r : Converter.frame + string) : Converter.loop_exit :=
  match r with
  | inl df => Converter.Break attempt encoding df
  | inr msg => Converter.Escaped attempt (Converter.Exception msg)
  end.

Definition is_decode_error (e : Converter.exn) : bool :=
  match e with
  | Converter.UnicodeDecodeError _ => true
  | _ => false
  end.

(** The output path an engine call is given. *)
Definition call_output (c : Converter.engine_call) : string :=
  match c with
  | Converter.PilSave _ o _ _ | Converter.PydubExport _ _ o _
  | Converter.FfmpegRun _ o _ _ _ | Converter.PandocConvert _ _ o _
  | Converter.ToCsv _ o _ | Converter.ToExcel _ o _ => o
  end.

(** The extension [process_file] derives from a file name. *)
Definition extension_of (file_name : string) : string :=
  if String.eqb file_name "" then ""
  else lstrip "." (lower (Py.path_suffix file_name)).

(** The extension the keyboard functions work with. *)
Definition normalized (file_extension : string) : string :=
  lstrip "." (lower file_extension).

(** The notice the two [except] clauses of [handle_conversion] show for an
    exception. *)
Definition error_notice (e : Converter.exn) : notice :=
  match e with
  | Converter.ConversionError _ => ConversionFailed (Converter.exn_str e)
  | _ => Unexpected
  end.

(** The documents delivered by a sequence of API calls. *)
Definition documents (l : list tg_call) : list (option (list Byte.byte)) :=
  omap (fun c => match c with
                 | AnswerDocument _ doc _ _ => Some doc
                 | _ => None
                 end) l.

(** The known aliases of an extension: [jpg] and [jpeg] name one format. *)
Definition aliases (ext : string) : list string :=
  if mem ext ["jpg"; "jpeg"] then ["jpg"; "jpeg"] else [ext].

(** A pending request is stored for [uid]: both the file handle and the
    source extension are there. *)
Definition pending (uid : Z) (w : world) : option (string * string * string) :=
  let d := data (get_session uid w) in
  match d !! "file_id", d !! "file_extension" with
  | Some f, Some e =>
      if String.eqb e "" || String.eqb f "" then None
      else Some (f, default "file" (d !! "file_name"), e)
  | _, _ => None
  end.

(** [legalTargets], as the keyboard presents them for a source extension. *)
Definition legalTargets (ext : string) : list string :=
  match Inline.create_format_keyboard ext "" with
  | Some kb => Inline.keyboard_targets kb
  | None => []
  end.

(** The targets the specification calls alpha-less, and the source modes it calls
    transparent. *)
Definition alpha_less (target : string) : bool :=
  mem (lower target) ["jpg"; "jpeg"; "bmp"; "pdf"].

Definition transparent (m : string) : bool := mem m ["RGBA"; "LA"; "P"].

(** The image is a paste onto a white RGB background. *)
Definition on_white (i : Converter.image) : bool :=
  match i with
  | Converter.Paste (Converter.New m _ (r, g, b)) _ _ =>
      String.eqb m "RGB" && (r =? 255) && (g =? 255) && (b =? 255)
  | _ => false
  end.

End Spec.

(** ** Concrete environments and worlds used in examples *)

Module Sample.
Import Py Converter Bot.

(** Engines that always succeed and leave an empty file at the output path;
    the CSV parser rejects an empty text, as pandas does. *)
Definition engines_ok : engines :=
  {| pil_open := fun _ => Some ("RGB", (1, 1)%nat);
     excel_parse := fun _ => inl [];
     csv_parse := fun t =>
       match t with
       | [] => inr "No columns to parse from file"
       | _ => inl [[t]]
       end;
     run := fun c d =>
       (match c with
        | PilSave _ o _ _ | PydubExport _ _ o _ | FfmpegRun _ o _ _ _
        | PandocConvert _ _ o _ | ToCsv _ o _ | ToExcel _ o _ => <[o := []]> d
        end, None) |}.

(** Engines whose transcoder fails after leaving a partial output file. *)
Definition engines_failing : engines :=
  {| pil_open := pil_open engines_ok;
     excel_parse := excel_parse engines_ok;
     csv_parse := csv_parse engines_ok;
     run := fun c d =>
       (match c with
        | FfmpegRun _ o _ _ _ => <[o := [x00]]> d
        | _ => d
        end, Some (FfmpegError
                     (Some (String.list_byte_of_string "Invalid data found")))) |}.

(** Engines whose transcoder fails and leaves bytes on [stderr] that are
    not valid UTF-8. *)
Definition engines_garbled : engines :=
  {| pil_open := pil_open engines_ok;
     excel_parse := excel_parse engines_ok;
     csv_parse := csv_parse engines_ok;
     run := fun c d => (d, Some (FfmpegError (Some [xff; xfe]))) |}.

(** Engines that open every image as a 2 x 2 RGBA image. *)
Definition engines_rgba : engines :=
  {| pil_open := fun _ => Some ("RGBA", (2, 2)%nat);
     excel_parse := excel_parse engines_ok;
     csv_parse := csv_parse engines_ok;
     run := run engines_ok |}.

Definition env_ok : env :=
  {| eng := engines_ok;
     temp_dir := "/tmp";
     MAX_FILE_SIZE_MB := 50;
     tg := fun _ => None;
     download := fun _ => Ok [x89; x50; x4e; x47] |}.

Definition env_tool_failure : env :=
  {| eng := engines_failing;
     temp_dir := "/tmp";
     MAX_FILE_SIZE_MB := 50;
     tg := fun _ => None;
     download := fun _ => Ok [x00; x00; x00; x18] |}.

Definition env_garbled : env :=
  {| eng := engines_garbled;
     temp_dir := "/tmp";
     MAX_FILE_SIZE_MB := 50;
     tg := fun _ => None;
     download := fun _ => Ok [x00; x00; x00; x18] |}.

(** Telegram refuses the edit that announces the download, the call made
    just before the [try] statement. *)
Definition env_loading_fails : env :=
  {| eng := engines_ok;
     temp_dir := "/tmp";
     MAX_FILE_SIZE_MB := 50;
     tg := fun c =>
       match c with
       | EditText _ Loading => Some (TelegramError "message can't be edited")
       | _ => None
       end;
     download := fun _ => Ok [x89; x50; x4e; x47] |}.

(** Telegram refuses the download, and later every edit of the status
    message. *)
Definition env_no_download : env :=
  {| eng := engines_ok;
     temp_dir := "/tmp";
     MAX_FILE_SIZE_MB := 50;
     tg := fun c =>
       match c with
       | EditText _ Unexpected => Some (TelegramError "message is not modified")
       | _ => None
       end;
     download := fun _ => Raise (TelegramError "file is too big") |}.

Definition pending_session (file_id file_name extension : string) : session :=
  {| state := Some waiting_for_format;
     data := <["file_id" := file_id]>
             (<["file_name" := file_name]>
              (<["file_extension" := extension]> ∅)) |}.

Definition empty_host : host := {| files := ∅; engine_log := [] |}.

(** User 7 has sent [cat.png] and is looking at the keyboard. *)
Definition world_png : world :=
  {| storage := {[ 7 := pending_session "BQACAgIAAxkBAAIB" "cat.png" "png" ]};
     machine := empty_host;
     sent := [] |}.

(** User 7 has sent [clip.mp4]. *)
Definition world_mp4 : world :=
  {| storage := {[ 7 := pending_session "BAACAgIAAxkBAAIC" "clip.mp4" "mp4" ]};
     machine := empty_host;
     sent := [] |}.

(** The text [Имя / Иван], one word per line, encoded in CP1251. *)
Definition cp1251_csv : list byte :=
  [xc8; xec; xff; x0a; xc8; xe2; xe0; xed; x0a].

Definition host_with (path : string) (bytes : list byte) : host :=
  {| files := {[ path := bytes ]}; engine_log := [] |}.

(** The keyboard and the conversion information of an extension, empty when
    there is none. *)
Definition keyboard_for (e : string) : Inline.keyboard :=
  default {| Inline.buttons := []; Inline.row_sizes := [] |}
          (Inline.create_format_keyboard e "").

Definition info_for (e : string) : Inline.conversion_info :=
  default {| Inline.info_type := ""; Inline.info_emoji := "";
             Inline.available_formats := []; Inline.format_names := [] |}
          (Inline.get_conversion_info e).

(** A world where nobody has a session and the temporary directory is
    empty. *)
Definition world_empty : world :=
  {| storage := ∅; machine := empty_host; sent := [] |}.

End Sample.

(** ** Properties of the capability registry *)

Import Py.

Lemma mem_In (x : string) (l : list string) : Py.mem x l = true <-> In x l.
Proof.
  unfold Py.mem. rewrite existsb_exists. split.
  - intros (y & Hy & Hxy). apply String.eqb_eq in Hxy. now subst.
  - intros H. exists x. split; [assumption | apply String.eqb_refl].
Qed.

(** C1: for every supported extension the keyboard's target list leaves out
    the extension and its aliases, but the list of [get_conversion_info]
    does not: for the supported source extension [jpeg] it offers [jpg], an
    alias of [jpeg], which [create_format_keyboard] excludes for the same
    source. *)
Theorem C1_conversion_info_offers_alias_of_jpeg :
  Forall (fun ext =>
            Forall (fun a => ~ In a (Spec.legalTargets ext)) (Spec.aliases ext))
         Inline.get_supported_extensions
  /\ In "jpeg" Inline.get_supported_extensions
  /\ In "jpg" (Spec.aliases "jpeg")
  /\ option_map Inline.available_formats (Inline.get_conversion_info "jpeg")
     = Some ["jpg"; "png"; "webp"; "bmp"; "pdf"]
  /\ Spec.legalTargets "jpeg" = ["png"; "webp"; "bmp"; "pdf"].
Proof.
  split.
  - repeat constructor; vm_compute; intuition discriminate.
  - vm_compute. intuition.
Qed.

(** Whatever the extension and the option table, no format of
    [exclude_formats] survives in the list of the keyboard. *)
Lemma keyboard_formats_exclude (ext : string) (opts : Inline.options) (a : string) :
  In a (Inline.exclude_formats ext) -> ~ In a (Inline.keyboard_formats ext opts).
Proof.
  intros Ha Hin. unfold Inline.keyboard_formats in Hin.
  apply filter_In in Hin. destruct Hin as [_ Hneg].
  apply mem_In in Ha. rewrite Ha in Hneg. discriminate.
Qed.

(** ** Properties of the converters *)

Section ConverterFacts.
Import Converter.

(** C8: [convert_video] asks the transcoder for (mpeg4, mp3) when the target
    is avi, for (libx264, aac) when it is mp4 or mkv and for a stream copy
    (copy, copy) for every other target; the call always carries the
    overwrite flag [y], and it is the one call the converter issues. *)
Theorem C8_video_codec_pairs (E : engines) (input_path output_path target : string)
    (d : host) :
  video_call input_path output_path target
  = FfmpegRun input_path output_path
      (if String.eqb target "avi" then "mpeg4"
       else if String.eqb target "mp4" || String.eqb target "mkv" then "libx264"
       else "copy")
      (if String.eqb target "avi" then "mp3"
       else if String.eqb target "mp4" || String.eqb target "mkv" then "aac"
       else "copy")
      [("y", PNone)]
  /\ engine_log (fst (convert_video E input_path output_path target d))
     = (engine_log d ++ [video_call input_path output_path target])%list.
Proof.
  split.
  - unfold video_call, video_settings, dict_get_or, codec_settings.
    cbn [dict_get].
    destruct (String.eqb target "mp4") eqn:H4; [| destruct (String.eqb target "avi") eqn:Ha;
      [| destruct (String.eqb target "mkv") eqn:Hk ] ]; cbn.
    + apply String.eqb_eq in H4. subst. reflexivity.
    + reflexivity.
    + reflexivity.
    + reflexivity.
  - unfold convert_video, run_in_executor, run_call.
    destruct (run E (video_call input_path output_path target) (files d)) as [f' r].
    reflexivity.
Qed.

End ConverterFacts.

Section ImageFacts.
Import Converter.

(** What [convert_image] does once the input is read and identified: it
    issues the one Pillow call [image_call] builds, and ends with the output
    path or with the engine's exception wrapped in a conversion error. *)
Lemma convert_image_run
    (E : engines) (input_path output_path target : string) (d : host)
    (bytes : list byte) (opened : string * (nat * nat)) :
  files d !! input_path = Some bytes ->
  pil_open E bytes = Some opened ->
  convert_image E input_path output_path target d
  = let c := image_call input_path output_path target opened in
    ({| files := fst (run E c (files d));
        engine_log := engine_log d ++ [c] |},
     match snd (run E c (files d)) with
     | None => Ok output_path
     | Some e =>
         Raise (ConversionError
                  ("Не удалось конвертировать изображение: " ++ exn_str e))
     end).
Proof.
  intros Hf Ho. unfold convert_image, run_in_executor, read_bytes, run_call.
  rewrite Hf, Ho. cbv zeta.
  destruct (run E (image_call input_path output_path target opened) (files d))
    as [f' [e |]]; reflexivity.
Qed.

(** The image [prepare_image] makes of an opened one, by target and mode. *)
Lemma prepare_image_cases (target : string) (img : image) :
  (mem (lower target) ["jpg"; "jpeg"; "pdf"] = true ->
     (mode img = "RGBA" ->
        prepare_image target img
        = Paste (New "RGB" (size img) (255, 255, 255)) img (Some (LastBand img)))
     /\ (mode img = "P" ->
           prepare_image target img
           = Paste (New "RGB" (size img) (255, 255, 255))
                   (Convert img "RGBA") (Some (LastBand (Convert img "RGBA"))))
     /\ (mode img = "RGB" -> prepare_image target img = img)
     /\ (mem (mode img) ["RGBA"; "P"; "LA"; "RGB"] = false ->
           prepare_image target img = Convert img "RGB"))
  /\ (mem (lower target) ["jpg"; "jpeg"; "pdf"] = false ->
        prepare_image target img = img).
Proof.
  unfold prepare_image. split.
  - intros ->. repeat split.
    + intros Hm. rewrite Hm. cbn. rewrite Hm. reflexivity.
    + intros Hm. rewrite Hm. reflexivity.
    + intros Hm. rewrite Hm. reflexivity.
    + intros Hm. cbn [mem existsb] in Hm.
      repeat (apply orb_false_elim in Hm; destruct Hm as [? Hm]).
      cbn [mem existsb].
      rewrite !String.eqb_sym with (x := mode img) in *.
      repeat match goal with H : String.eqb _ _ = false |- _ => rewrite H; clear H end.
      reflexivity.
  - intros ->. reflexivity.
Qed.

(** C6 (as amended): for a target name written in ASCII, once the input
    file is read and identified as an image of mode [m] and size [sz],
    [convert_image] hands Pillow exactly one [save] call, to the output
    path, in the format of the target, and ends
    with the output path or with the encoder's exception wrapped in a
    conversion error.  The image it hands over is, for the targets jpg, jpeg
    and pdf in any letter case: an RGBA source pasted onto a white RGB
    background of its size with its alpha band as mask, a palette source
    likewise after conversion to RGBA, an RGB source as opened, and a source
    of any mode other than RGBA, P, LA and RGB converted to RGB; for every
    other target, bmp included, it is the image as opened. *)
Theorem C6_flattening_for_jpeg_and_pdf_only
    (E : engines) (input_path output_path target : string) (d : host)
    (bytes : list byte) (m : string) (sz : nat * nat) :
  is_ascii target = true ->
  files d !! input_path = Some bytes ->
  pil_open E bytes = Some (m, sz) ->
  let img := Opened input_path m sz in
  let fmt := dict_get_or format_map (lower target) (upper target) in
  exists handed : image,
    convert_image E input_path output_path target d
    = (let c := PilSave handed output_path fmt (save_kwargs_for fmt) in
       ({| files := fst (run E c (files d));
           engine_log := engine_log d ++ [c] |},
        match snd (run E c (files d)) with
        | None => Ok output_path
        | Some e =>
            Raise (ConversionError
                     ("Не удалось конвертировать изображение: " ++ exn_str e))
        end))
    /\ (mem (lower target) ["jpg"; "jpeg"; "pdf"] = true ->
          (m = "RGBA" ->
             handed
             = Paste (New "RGB" sz (255, 255, 255)) img (Some (LastBand img)))
          /\ (m = "P" ->
                handed
                = Paste (New "RGB" sz (255, 255, 255))
                        (Convert img "RGBA")
                        (Some (LastBand (Convert img "RGBA"))))
          /\ (m = "RGB" -> handed = img)
          /\ (mem m ["RGBA"; "P"; "LA"; "RGB"] = false ->
                handed = Convert img "RGB"))
    /\ (mem (lower target) ["jpg"; "jpeg"; "pdf"] = false -> handed = img).
Proof.
  intros _ Hf Ho img fmt.
  exists (prepare_image target img). split.
  - rewrite (convert_image_run E input_path output_path target d bytes (m, sz))
      by assumption.
    reflexivity.
  - exact (prepare_image_cases target img).
Qed.

Lemma C6_flattening_witness :
  engine_log
    (fst (convert_image Sample.engines_rgba "/tmp/in.png" "/tmp/out.jpg" "JPG"
                        (Sample.host_with "/tmp/in.png" [x89; x50; x4e; x47])))
  = [PilSave (Paste (New "RGB" (2, 2)%nat (255, 255, 255))
                    (Opened "/tmp/in.png" "RGBA" (2, 2)%nat)
                    (Some (LastBand (Opened "/tmp/in.png" "RGBA" (2, 2)%nat))))
             "/tmp/out.jpg" "JPEG"
             [("quality", PInt 95); ("optimize", PBool true)]]
  /\ engine_log
       (fst (convert_image Sample.engines_rgba "/tmp/in.png" "/tmp/out.webp"
                           "webp"
                           (Sample.host_with "/tmp/in.png" [x89; x50; x4e; x47])))
     = [PilSave (Opened "/tmp/in.png" "RGBA" (2, 2)%nat)
                "/tmp/out.webp" "WEBP" [("quality", PInt 90)]].
Proof.
  split.
  - destruct (C6_flattening_for_jpeg_and_pdf_only
                Sample.engines_rgba "/tmp/in.png" "/tmp/out.jpg" "JPG"
                (Sample.host_with "/tmp/in.png" [x89; x50; x4e; x47])
                [x89; x50; x4e; x47] "RGBA" (2, 2)%nat eq_refl eq_refl eq_refl)
      as (handed & Hrun & Hflat & _).
    destruct (Hflat eq_refl) as [Hrgba _].
    rewrite Hrun, (Hrgba eq_refl). reflexivity.
  - destruct (C6_flattening_for_jpeg_and_pdf_only
                Sample.engines_rgba "/tmp/in.png" "/tmp/out.webp" "webp"
                (Sample.host_with "/tmp/in.png" [x89; x50; x4e; x47])
                [x89; x50; x4e; x47] "RGBA" (2, 2)%nat eq_refl eq_refl eq_refl)
      as (handed & Hrun & _ & Hkeep).
    rewrite Hrun, (Hkeep eq_refl). reflexivity.
Defined.

(** C6, counterexample: bmp is one of the alpha-less legal image targets and
    RGBA a transparent source mode, yet for the target bmp [convert_image]
    succeeds and the one image it hands to the encoder is the RGBA image as
    opened, with no white background. *)
Lemma C6_counterexample_bmp :
  In "bmp" (Spec.legalTargets "png")
  /\ Spec.alpha_less "bmp" = true
  /\ Spec.transparent "RGBA" = true
  /\ snd (convert_image Sample.engines_rgba "/tmp/in.png" "/tmp/out.bmp" "bmp"
                        (Sample.host_with "/tmp/in.png" [x89; x50; x4e; x47]))
     = Ok "/tmp/out.bmp"
  /\ engine_log
       (fst (convert_image Sample.engines_rgba "/tmp/in.png" "/tmp/out.bmp" "bmp"
                           (Sample.host_with "/tmp/in.png" [x89; x50; x4e; x47])))
     = [PilSave (Opened "/tmp/in.png" "RGBA" (2, 2)%nat) "/tmp/out.bmp" "BMP" []]
  /\ Spec.on_white (Opened "/tmp/in.png" "RGBA" (2, 2)%nat) = false.
Proof. vm_compute. intuition. Qed.

End ImageFacts.

(** ** Temporary path names *)

Section PathFacts.
Import Converter Bot.

Lemma string_app_cancel_l (p a b : string) : p ++ a = p ++ b -> a = b.
Proof.
  induction p as [| c p IH]; cbn; intros H; [assumption |].
  injection H as H. apply IH, H.
Qed.

Lemma string_app_assoc (a b c : string) : (a ++ b) ++ c = a ++ b ++ c.
Proof.
  induction a as [| x a IH]; [reflexivity |].
  change (String x ((a ++ b) ++ c) = String x (a ++ b ++ c)).
  f_equal. exact IH.
Qed.






(** Joining onto a fixed directory prepends a fixed prefix to every
    relative name. *)
Lemma path_join_relative (a : string) :
  exists p, forall b, is_absolute b = false -> path_join a b = p ++ b.
Proof.
  unfold path_join.
  destruct (String.eqb a "") eqn:Ha.
  - exists "". intros b ->. reflexivity.
  - destruct (Ascii.eqb (List.last (list_ascii_of_string a) "a"%char) "/").
    + exists a. intros b ->. reflexivity.
    + exists (a ++ "/"). intros b ->. symmetry. apply string_app_assoc.
Qed.





End PathFacts.

(** ** Reception of a file *)

Section FileFacts.
Import Converter Bot.

Lemma skipn_new {A : Type} (l new : list A) :
  List.skipn (length l) (l ++ new)%list = new.
Proof. induction l as [| x l IH]; [reflexivity | exact IH]. Qed.

Lemma calls_of_call (V : env) (c : tg_call) (w : world) :
  Spec.calls_of (call V c) w = [c].
Proof. unfold Spec.calls_of, call. cbn. apply skipn_new. Qed.

(** [classify_and_offer] answers with one message, and never with the
    notice of an oversized file. *)
Lemma classify_and_offer_calls (V : env) (uid : Z) (file_id file_name : string)
    (file_size : Z) (w : world) :
  exists n kb,
    Spec.calls_of (classify_and_offer V uid file_id file_name file_size) w
    = [MessageAnswer uid n kb]
    /\ Spec.failure_of n <> Some Spec.SizeExceeded.
Proof.
  unfold classify_and_offer.
  destruct (_ || _).
  { eexists _, _. split; [apply calls_of_call | discriminate]. }
  destruct (Inline.get_conversion_info _) as [ci |].
  2: { eexists _, _. split; [apply calls_of_call | discriminate]. }
  destruct (Inline.available_formats ci).
  { eexists _, _. split; [apply calls_of_call | discriminate]. }
  destruct (Inline.create_format_keyboard _ _) as [kb |].
  2: { eexists _, _. split; [apply calls_of_call | discriminate]. }
  eexists _, _. split.
  - unfold Spec.calls_of, bind, update_data, set_state, set_session, call. cbn.
    apply skipn_new.
  - discriminate.
Qed.

Lemma process_file_oversized (V : env) (uid : Z) (file_id file_name : string)
    (file_size : Z) (w : world) :
  MAX_FILE_SIZE V < file_size ->
  process_file V uid file_id file_name file_size w
  = call V (MessageAnswer uid
              (TooBig file_size (MAX_FILE_SIZE V / (1024 * 1024))) None) w.
Proof.
  intros Hbig. unfold process_file. apply Z.ltb_lt in Hbig. now rewrite Hbig.
Qed.

(** C5: a file larger than the configured limit is answered with the
    size-exceeded notice, whatever its name and extension: the FSM storage
    (hence the pending request of the user, if any) and the host are left as
    they were, and the answer is the only call made. *)
Theorem C5_oversized_file_rejected_before_classification
    (V : env) (uid : Z) (file_id file_name : string) (file_size : Z) (w : world) :
  MAX_FILE_SIZE V < file_size ->
  storage (fst (process_file V uid file_id file_name file_size w)) = storage w
  /\ machine (fst (process_file V uid file_id file_name file_size w)) = machine w
  /\ Spec.pending uid (fst (process_file V uid file_id file_name file_size w))
     = Spec.pending uid w
  /\ Spec.calls_of (process_file V uid file_id file_name file_size) w
     = [MessageAnswer uid
          (TooBig file_size (MAX_FILE_SIZE V / (1024 * 1024))) None]
  /\ Spec.reported (process_file V uid file_id file_name file_size) w
     = [Spec.SizeExceeded].
Proof.
  intros Hbig. unfold Spec.reported, Spec.calls_of.
  rewrite (process_file_oversized V uid file_id file_name file_size w Hbig).
  fold (Spec.calls_of (call V (MessageAnswer uid
          (TooBig file_size (MAX_FILE_SIZE V / (1024 * 1024))) None)) w).
  rewrite calls_of_call. repeat split.
Qed.

Lemma C5_oversized_file_witness :
  Spec.reported
    (process_file Sample.env_ok 7 "BQACAgIAAxkBAAIB" "setup.exe" 52428801)
    Sample.world_png
  = [Spec.SizeExceeded]
  /\ Spec.pending 7
       (fst (process_file Sample.env_ok 7 "BQACAgIAAxkBAAIB" "setup.exe" 52428801
                          Sample.world_png))
     = Spec.pending 7 Sample.world_png.
Proof.
  assert (H : MAX_FILE_SIZE Sample.env_ok < 52428801) by (vm_compute; reflexivity).
  destruct (C5_oversized_file_rejected_before_classification
              Sample.env_ok 7 "BQACAgIAAxkBAAIB" "setup.exe" 52428801
              Sample.world_png H) as (_ & _ & Hp & _ & Hr).
  split; assumption.
Defined.

(** C10: the comparison with the limit is strict.  A file of exactly the
    limit is handed to the classification step and is not reported as
    oversized; the size-exceeded notice is given exactly for the sizes
    strictly above the limit. *)
Theorem C10_size_limit_is_strict
    (V : env) (uid : Z) (file_id file_name : string) (w : world) :
  process_file V uid file_id file_name (MAX_FILE_SIZE V) w
  = classify_and_offer V uid file_id file_name (MAX_FILE_SIZE V) w
  /\ ~ In Spec.SizeExceeded
        (Spec.reported (process_file V uid file_id file_name (MAX_FILE_SIZE V)) w)
  /\ forall file_size : Z,
       In Spec.SizeExceeded
          (Spec.reported (process_file V uid file_id file_name file_size) w)
       <-> MAX_FILE_SIZE V < file_size.
Proof.
  assert (Hsmall : forall file_size, file_size <= MAX_FILE_SIZE V ->
            ~ In Spec.SizeExceeded
                (Spec.reported (process_file V uid file_id file_name file_size) w)).
  { intros file_size Hle. unfold Spec.reported, process_file.
    replace (MAX_FILE_SIZE V <? file_size) with false
      by (symmetry; apply Z.ltb_ge; exact Hle).
    destruct (classify_and_offer_calls V uid file_id file_name file_size w)
      as (n & kb & -> & Hn).
    cbn. destruct (Spec.failure_of n) as [f |]; cbn; [| tauto].
    intros [-> | []]. now apply Hn. }
  split; [| split].
  - unfold process_file. now rewrite Z.ltb_irrefl.
  - apply Hsmall. lia.
  - intros file_size. split.
    + intros Hin. destruct (Z.lt_ge_cases (MAX_FILE_SIZE V) file_size) as [Hlt | Hge];
        [exact Hlt | exfalso; exact (Hsmall file_size Hge Hin)].
    + intros Hlt. unfold Spec.reported, Spec.calls_of.
      rewrite (process_file_oversized V uid file_id file_name file_size w Hlt).
      fold (Spec.calls_of (call V (MessageAnswer uid
              (TooBig file_size (MAX_FILE_SIZE V / (1024 * 1024))) None)) w).
      rewrite calls_of_call. left. reflexivity.
Qed.

End FileFacts.

(** ** Selection of a format and the conversion attempt *)

Section CallbackFacts.
Import Converter Bot.

Lemma split_go_no_sep (sep : ascii) (cur s : string) :
  contains sep s = false -> split_go sep cur s = [cur ++ s].
Proof.
  revert cur. induction s as [| c s IH]; intros cur H.
  - cbn. f_equal. clear H. induction cur as [| x cur IHc]; [reflexivity |].
    change (String x cur = String x (cur ++ "")). f_equal. exact IHc.
  - cbn in H. apply orb_false_elim in H. destruct H as [Hc Hs].
    cbn [split_go]. rewrite Ascii.eqb_sym, Hc. rewrite IH by exact Hs.
    f_equal. apply string_app_assoc.
Qed.

Lemma split_go_sep (sep : ascii) (cur a r : string) :
  contains sep a = false ->
  split_go sep cur (a ++ String sep r) = (cur ++ a) :: split_go sep "" r.
Proof.
  revert cur. induction a as [| c a IH]; intros cur H.
  - change ("" ++ String sep r) with (String sep r). cbn [split_go].
    rewrite Ascii.eqb_refl. f_equal.
    clear H. induction cur as [| x cur IHc]; [reflexivity |].
    change (String x cur = String x (cur ++ "")). f_equal. exact IHc.
  - cbn in H. apply orb_false_elim in H. destruct H as [Hc Hs].
    change (String c a ++ String sep r) with (String c (a ++ String sep r)).
    cbn [split_go]. rewrite Ascii.eqb_sym, Hc. rewrite IH by exact Hs.
    f_equal. apply string_app_assoc.
Qed.

(** A token [cvt:target] whose target has no colon splits in two. *)
Lemma split_token (target : string) :
  contains ":" target = false -> split ":" ("cvt:" ++ target) = ["cvt"; target].
Proof.
  intros H. unfold split.
  change ("cvt:" ++ target) with ("cvt" ++ String ":" target).
  rewrite split_go_sep by reflexivity.
  rewrite split_go_no_sep by exact H. reflexivity.
Qed.

(** The three values [handle_conversion] reads from the FSM data are those
    of the pending request, when there is one. *)
Lemma pending_some (uid : Z) (w : world) (f n e : string) :
  Spec.pending uid w = Some (f, n, e) ->
  default "" (data (get_session uid w) !! "file_id") = f
  /\ default "file" (data (get_session uid w) !! "file_name") = n
  /\ default "" (data (get_session uid w) !! "file_extension") = e
  /\ String.eqb e "" || String.eqb f "" = false.
Proof.
  unfold Spec.pending.
  destruct (data (get_session uid w) !! "file_id") as [f' |]; [| discriminate].
  destruct (data (get_session uid w) !! "file_extension") as [e' |]; [| discriminate].
  destruct (String.eqb e' "" || String.eqb f' "") eqn:Hemp; [discriminate |].
  intros [= <- <- <-]. cbn. auto.
Qed.

Lemma pending_none (uid : Z) (w : world) :
  Spec.pending uid w = None ->
  String.eqb (default "" (data (get_session uid w) !! "file_extension")) ""
  || String.eqb (default "" (data (get_session uid w) !! "file_id")) "" = true.
Proof.
  unfold Spec.pending.
  destruct (data (get_session uid w) !! "file_id") as [f' |];
    destruct (data (get_session uid w) !! "file_extension") as [e' |]; cbn;
    try destruct (String.eqb e' "" || String.eqb f' "") eqn:Hemp;
    try discriminate; intros _; auto using orb_true_r.
Qed.

End CallbackFacts.

Section AttemptFacts.
Import Converter Bot.

(** What [handle_conversion] does with a well-formed token once the callback
    is acknowledged depends on the pending request alone: the target is
    taken from the token as it is. *)
Lemma handle_conversion_token (V : env) (uid : Z) (target : string) (w : world) :
  contains ":" target = false ->
  tg V (CallbackAnswer uid "⏳ Начинаю конвертацию..." false) = None ->
  handle_conversion V uid ("cvt:" ++ target) w
  = match Spec.pending uid w with
    | Some (f, n, e) =>
        (do call V (EditText uid Loading)
         then conversion_attempt V uid (make_job V uid f n e target))
          {| storage := storage w; machine := machine w;
             sent := (sent w
                      ++ [CallbackAnswer uid "⏳ Начинаю конвертацию..." false])%list |}
    | None =>
        (do call V (EditText uid FileInfoLost) then clear uid)
          {| storage := storage w; machine := machine w;
             sent := (sent w
                      ++ [CallbackAnswer uid "⏳ Начинаю конвертацию..." false])%list |}
    end.
Proof.
  intros Htok Hack. unfold handle_conversion.
  rewrite (split_token target Htok). cbn [length Nat.eqb negb nth].
  unfold bind at 1. unfold call at 1. rewrite Hack.
  unfold bind at 1. unfold get_data at 1.
  change (get_session uid _) with (get_session uid w).
  destruct (Spec.pending uid w) as [[[f n] e] |] eqn:Hp.
  - destruct (pending_some uid w f n e Hp) as (-> & -> & -> & ->). reflexivity.
  - rewrite (pending_none uid w Hp). reflexivity.
Qed.

Lemma bind_call_ok {A : Type} (V : env) (c : tg_call) (m : M A) (w : world) :
  tg V c = None ->
  (do call V c then m) w
  = m {| storage := storage w; machine := machine w;
         sent := (sent w ++ [c])%list |}.
Proof. intros H. unfold bind, call. now rewrite H. Qed.

Lemma cleanup_files_absent (paths : list string) (d : fs) (p : string) :
  In p paths \/ d !! p = None -> cleanup_files paths d !! p = None.
Proof.
  revert d. induction paths as [| q rest IH]; intros d H.
  - destruct H as [[] | H]. exact H.
  - cbn [cleanup_files]. apply IH.
    unfold exists_, os_remove.
    destruct (decide (q = p)) as [-> | Hne].
    + right. destruct (d !! p) eqn:Hd; [apply lookup_delete_eq | exact Hd].
    + destruct H as [[Hq | Hin] | Hnone]; [contradiction | now left | right].
      destruct (d !! q) eqn:Hd; [| exact Hnone].
      rewrite lookup_delete_ne by exact Hne. exact Hnone.
Qed.

(** However the [try] suite ends, the [finally] clause leaves the session
    idle and the two temporary paths absent. *)
Lemma conversion_attempt_clears (V : env) (uid : Z) (j : job) (w : world) :
  get_session uid (fst (conversion_attempt V uid j w)) = Idle
  /\ files (machine (fst (conversion_attempt V uid j w))) !! input_path j = None
  /\ files (machine (fst (conversion_attempt V uid j w))) !! output_path j = None.
Proof.
  unfold conversion_attempt, finally.
  destruct (try_except (attempt_body V uid j) (attempt_handler V uid) w) as [w1 r].
  unfold attempt_final, bind, clear, set_session, on_files, on_host.
  cbn -[cleanup_files]. repeat split.
  - unfold get_session. cbn. now rewrite lookup_insert_eq.
  - apply cleanup_files_absent. left. now left.
  - apply cleanup_files_absent. left. right. now left.
Qed.

End AttemptFacts.

Section SelectionFacts.
Import Converter Bot.

(** C2 (as amended): [handle_conversion] never compares the chosen target
    with the legal targets of the stored source extension.  For a
    well-formed token whose callback is acknowledged, a stored pending
    request always leads to the announcement of the download and to the
    conversion attempt on the stored file with the chosen target, legal or
    not; the stale-selection notice is given when no pending request is
    stored, and then nothing is handed to an engine. *)
Theorem C2_chosen_target_is_not_validated
    (V : env) (uid : Z) (target : string) (w : world) :
  contains ":" target = false ->
  tg V (CallbackAnswer uid "⏳ Начинаю конвертацию..." false) = None ->
  (forall f n e, Spec.pending uid w = Some (f, n, e) ->
     handle_conversion V uid ("cvt:" ++ target) w
     = (do call V (EditText uid Loading)
        then conversion_attempt V uid (make_job V uid f n e target))
         {| storage := storage w; machine := machine w;
            sent := (sent w
                     ++ [CallbackAnswer uid "⏳ Начинаю конвертацию..." false])%list |})
  /\ (Spec.pending uid w = None ->
        Spec.reported (handle_conversion V uid ("cvt:" ++ target)) w
        = [Spec.StaleSelection]
        /\ machine (fst (handle_conversion V uid ("cvt:" ++ target) w))
           = machine w).
Proof.
  intros Htok Hack. split.
  - intros f n e Hp. rewrite handle_conversion_token by assumption.
    now rewrite Hp.
  - intros Hp. unfold Spec.reported, Spec.calls_of.
    rewrite handle_conversion_token by assumption. rewrite Hp.
    unfold bind, call, clear, set_session. cbn -[List.skipn].
    destruct (tg V (EditText uid FileInfoLost)); cbn -[List.skipn];
      (split; [| reflexivity]);
      rewrite <- app_assoc; rewrite skipn_new; reflexivity.
Qed.

Lemma C2_chosen_target_witness :
  handle_conversion Sample.env_ok 7 ("cvt:" ++ "png") Sample.world_png
  = (do call Sample.env_ok (EditText 7 Loading)
     then conversion_attempt Sample.env_ok 7
            (make_job Sample.env_ok 7 "BQACAgIAAxkBAAIB" "cat.png" "png" "png"))
      {| storage := storage Sample.world_png;
         machine := machine Sample.world_png;
         sent := (sent Sample.world_png
                  ++ [CallbackAnswer 7 "⏳ Начинаю конвертацию..." false])%list |}.
Proof.
  apply (proj1 (C2_chosen_target_is_not_validated
                  Sample.env_ok 7 "png" Sample.world_png eq_refl eq_refl)).
  reflexivity.
Defined.

(** C2, counterexample: user 7 has a pending [cat.png]; the target [png] is
    not among the legal targets of [png], though it is one for [jpg].  The
    handler reports no failure at all: the image engine is run with that
    target and its output is delivered. *)
Lemma C2_counterexample_unchecked_target :
  Spec.pending 7 Sample.world_png = Some ("BQACAgIAAxkBAAIB", "cat.png", "png")
  /\ ~ In "png" (Spec.legalTargets "png")
  /\ In "png" (Spec.legalTargets "jpg")
  /\ Spec.reported (handle_conversion Sample.env_ok 7 "cvt:png") Sample.world_png
     = []
  /\ engine_log
       (machine (fst (handle_conversion Sample.env_ok 7 "cvt:png" Sample.world_png)))
     = [PilSave (Opened "/tmp/input_7_BQACAgIA.png" "RGB" (1, 1)%nat)
                "/tmp/output_7_BQACAgIA.png" "PNG" [("optimize", PBool true)]]
  /\ In (AnswerDocument 7 (Some []) "cat.png" (Done "cat.png" "cat.png"))
        (Spec.calls_of (handle_conversion Sample.env_ok 7 "cvt:png")
                       Sample.world_png).
Proof.
  vm_compute. repeat split; try tauto.
  intros H. repeat (destruct H as [H | H]; [discriminate H |]). exact H.
Qed.

(** The two Telegram calls of [handle_conversion] that stand before its
    [try] statement: when one of them raises, the handler is left with that
    exception, and neither the FSM storage nor the host has changed. *)
Lemma handle_conversion_ack_raises
    (V : env) (uid : Z) (callback_data : string) (w : world) (x : exn) :
  tg V (CallbackAnswer uid "⏳ Начинаю конвертацию..." false) = Some x ->
  handle_conversion V uid callback_data w
  = ({| storage := storage w; machine := machine w;
        sent := (sent w
                 ++ [CallbackAnswer uid "⏳ Начинаю конвертацию..." false])%list |},
     Raise x).
Proof.
  intros Hack. unfold handle_conversion.
  unfold bind at 1. unfold call at 1. rewrite Hack. reflexivity.
Qed.

Lemma handle_conversion_loading_raises
    (V : env) (uid : Z) (target : string) (w : world) (f n e : string)
    (x : exn) :
  contains ":" target = false ->
  tg V (CallbackAnswer uid "⏳ Начинаю конвертацию..." false) = None ->
  tg V (EditText uid Loading) = Some x ->
  Spec.pending uid w = Some (f, n, e) ->
  handle_conversion V uid ("cvt:" ++ target) w
  = ({| storage := storage w; machine := machine w;
        sent := (sent w
                 ++ [CallbackAnswer uid "⏳ Начинаю конвертацию..." false;
                     EditText uid Loading])%list |},
     Raise x).
Proof.
  intros Htok Hack Hload Hp.
  rewrite handle_conversion_token by assumption. rewrite Hp.
  unfold bind at 1. unfold call at 1. rewrite Hload. cbn [storage machine sent].
  rewrite <- app_assoc. reflexivity.
Qed.

(** C3 (as amended): once a [cvt:] callback with a stored pending request
    has entered the [try] statement of the conversion attempt (well-formed
    token, callback acknowledged, download announced), then on every way out
    of the attempt, be it delivery, a conversion error or any other
    exception of an engine, of the download or of a Telegram call, the
    session of the user is idle and neither the input path nor the output
    path of the job is in the temporary directory; the same holds of the
    [try] statement taken alone, for every job and every world it is entered
    in.  The acknowledgement of the callback and the edit that announces the
    download stand before the [try]: when one of them raises, the handler is
    left with that exception, the FSM storage and the host are as they were,
    and the request is still pending. *)
Theorem C3_attempt_always_clears_session_and_files
    (V : env) (uid : Z) (target : string) (w : world) (f n e : string) :
  (forall (j : job) (w0 : world),
     get_session uid (fst (conversion_attempt V uid j w0)) = Idle
     /\ files (machine (fst (conversion_attempt V uid j w0))) !! input_path j
        = None
     /\ files (machine (fst (conversion_attempt V uid j w0))) !! output_path j
        = None)
  /\ (contains ":" target = false ->
      tg V (CallbackAnswer uid "⏳ Начинаю конвертацию..." false) = None ->
      tg V (EditText uid Loading) = None ->
      Spec.pending uid w = Some (f, n, e) ->
      get_session uid (fst (handle_conversion V uid ("cvt:" ++ target) w)) = Idle
      /\ Spec.pending uid (fst (handle_conversion V uid ("cvt:" ++ target) w))
         = None
      /\ files (machine (fst (handle_conversion V uid ("cvt:" ++ target) w)))
           !! input_path_for V uid f e = None
      /\ files (machine (fst (handle_conversion V uid ("cvt:" ++ target) w)))
           !! output_path_for V uid f target = None)
  /\ (forall x,
        tg V (CallbackAnswer uid "⏳ Начинаю конвертацию..." false) = Some x ->
        Spec.pending uid w = Some (f, n, e) ->
        snd (handle_conversion V uid ("cvt:" ++ target) w) = Raise x
        /\ storage (fst (handle_conversion V uid ("cvt:" ++ target) w))
           = storage w
        /\ machine (fst (handle_conversion V uid ("cvt:" ++ target) w))
           = machine w
        /\ Spec.pending uid (fst (handle_conversion V uid ("cvt:" ++ target) w))
           = Some (f, n, e))
  /\ (forall x,
        contains ":" target = false ->
        tg V (CallbackAnswer uid "⏳ Начинаю конвертацию..." false) = None ->
        tg V (EditText uid Loading) = Some x ->
        Spec.pending uid w = Some (f, n, e) ->
        snd (handle_conversion V uid ("cvt:" ++ target) w) = Raise x
        /\ storage (fst (handle_conversion V uid ("cvt:" ++ target) w))
           = storage w
        /\ machine (fst (handle_conversion V uid ("cvt:" ++ target) w))
           = machine w
        /\ Spec.pending uid (fst (handle_conversion V uid ("cvt:" ++ target) w))
           = Some (f, n, e)).
Proof.
  split; [intros j w0; apply conversion_attempt_clears |].
  split.
  { intros Htok Hack Hload Hp.
    rewrite handle_conversion_token by assumption. rewrite Hp.
    rewrite bind_call_ok by exact Hload.
    match goal with
    | |- context [conversion_attempt V uid ?j ?w1] =>
        destruct (conversion_attempt_clears V uid j w1) as (Hs & Hi & Ho)
    end.
    repeat split; try assumption.
    unfold Spec.pending. rewrite Hs. reflexivity. }
  split.
  - intros x Hack Hp.
    rewrite (handle_conversion_ack_raises V uid _ w x Hack).
    repeat split. exact Hp.
  - intros x Htok Hack Hload Hp.
    rewrite (handle_conversion_loading_raises V uid target w f n e x)
      by assumption.
    repeat split. exact Hp.
Qed.

Lemma C3_attempt_witness :
  (get_session 7 (fst (handle_conversion Sample.env_tool_failure 7
                         ("cvt:" ++ "avi") Sample.world_mp4)) = Idle
   /\ files (machine (fst (handle_conversion Sample.env_tool_failure 7
                             ("cvt:" ++ "avi") Sample.world_mp4)))
        !! "/tmp/input_7_BAACAgIA.mp4" = None
   /\ files (machine (fst (handle_conversion Sample.env_tool_failure 7
                             ("cvt:" ++ "avi") Sample.world_mp4)))
        !! "/tmp/output_7_BAACAgIA.avi" = None)
  /\ (snd (handle_conversion Sample.env_loading_fails 7
                             ("cvt:" ++ "jpg") Sample.world_png)
      = Raise (TelegramError "message can't be edited")
      /\ Spec.pending 7 (fst (handle_conversion Sample.env_loading_fails 7
                                ("cvt:" ++ "jpg") Sample.world_png))
         = Some ("BQACAgIAAxkBAAIB", "cat.png", "png")).
Proof.
  split.
  - destruct (proj1 (proj2 (C3_attempt_always_clears_session_and_files
                              Sample.env_tool_failure 7 "avi" Sample.world_mp4
                              "BAACAgIAAxkBAAIC" "clip.mp4" "mp4"))
                    eq_refl eq_refl eq_refl eq_refl) as (Hs & _ & Hi & Ho).
    repeat split; assumption.
  - destruct (proj2 (proj2 (proj2 (C3_attempt_always_clears_session_and_files
                                     Sample.env_loading_fails 7 "jpg"
                                     Sample.world_png
                                     "BQACAgIAAxkBAAIB" "cat.png" "png")))
                    (TelegramError "message can't be edited")
                    eq_refl eq_refl eq_refl eq_refl) as (Hr & _ & _ & Hp).
    split; assumption.
Defined.

(** C3, counterexample: user 7 has a pending request for [cat.png] and
    presses the button [cvt:jpg]; Telegram refuses the edit that announces
    the download, which stands before the [try] statement.  The handler is
    left with that exception, and the session of the user is not idle: it
    still waits for a format and still holds the request. *)
Lemma C3_counterexample_edit_before_try_fails :
  Spec.pending 7 Sample.world_png = Some ("BQACAgIAAxkBAAIB", "cat.png", "png")
  /\ snd (handle_conversion Sample.env_loading_fails 7 "cvt:jpg"
                            Sample.world_png)
     = Raise (TelegramError "message can't be edited")
  /\ state (get_session 7 (fst (handle_conversion Sample.env_loading_fails 7
                                  "cvt:jpg" Sample.world_png)))
     = Some waiting_for_format
  /\ state Idle = None
  /\ Spec.pending 7 (fst (handle_conversion Sample.env_loading_fails 7 "cvt:jpg"
                                            Sample.world_png))
     = Some ("BQACAgIAAxkBAAIB", "cat.png", "png").
Proof. repeat split; reflexivity. Qed.

(** The three ways out of the attempt, on the sample worlds: delivery, a
    conversion error of the transcoder (which had left a partial output
    file), and an exception of the download followed by a failing edit in
    the handler, which leaves [handle_conversion] as an exception. *)
Example attempt_exits :
  (snd (handle_conversion Sample.env_ok 7 "cvt:jpg" Sample.world_png) = Ok tt
   /\ Spec.reported (handle_conversion Sample.env_ok 7 "cvt:jpg") Sample.world_png
      = [])
  /\ (snd (handle_conversion Sample.env_tool_failure 7 "cvt:avi" Sample.world_mp4)
      = Ok tt
      /\ Spec.reported (handle_conversion Sample.env_tool_failure 7 "cvt:avi")
                       Sample.world_mp4
         = [Spec.ToolFailure])
  /\ (snd (handle_conversion Sample.env_no_download 7 "cvt:avi" Sample.world_mp4)
      = Raise (TelegramError "message is not modified")
      /\ Spec.reported (handle_conversion Sample.env_no_download 7 "cvt:avi")
                       Sample.world_mp4
         = [Spec.UnexpectedFault]).
Proof. vm_compute. repeat split. Qed.

End SelectionFacts.

(** ** Reading a CSV source *)

Section CsvFacts.
Import Converter.

Lemma decode_raise (encoding : string) (bytes : list byte) (e : exn) :
  decode encoding bytes = Raise e -> Spec.is_decode_error e = true.
Proof.
  unfold decode.
  destruct (if String.eqb encoding "utf-8" then _ else _); [discriminate |].
  intros [= <-]. reflexivity.
Qed.

Lemma decode_latin1 (bytes : list byte) :
  decode "latin-1" bytes = Ok (map byte_val bytes).
Proof. reflexivity. Qed.

(** One round of the loop on a readable file. *)
Lemma read_csv_decoded (E : engines) (d : host) (input_path encoding : string)
    (bytes : list byte) :
  files d !! input_path = Some bytes ->
  read_csv E d input_path encoding
  = match decode encoding bytes with
    | Ok t => parsed (csv_parse E t)
    | Raise e => Raise e
    end.
Proof. intros H. unfold read_csv, read_bytes. now rewrite H. Qed.

Lemma loop_round_ok (E : engines) (d : host) (input_path encoding : string)
    (bytes : list byte) (t : text) (attempt : nat) (rest : list string) :
  files d !! input_path = Some bytes ->
  decode encoding bytes = Ok t ->
  csv_loop E d input_path attempt (encoding :: rest)
  = Spec.parsed_exit (S attempt) encoding (csv_parse E t).
Proof.
  intros Hf Hd. cbn [csv_loop]. rewrite (read_csv_decoded E d _ _ bytes Hf), Hd.
  destruct (csv_parse E t); reflexivity.
Qed.

Lemma loop_round_fail (E : engines) (d : host) (input_path encoding : string)
    (bytes : list byte) (e : exn) (attempt : nat) (rest : list string) :
  files d !! input_path = Some bytes ->
  decode encoding bytes = Raise e ->
  csv_loop E d input_path attempt (encoding :: rest)
  = csv_loop E d input_path (S attempt) rest.
Proof.
  intros Hf Hd. cbn [csv_loop]. rewrite (read_csv_decoded E d _ _ bytes Hf), Hd.
  pose proof (decode_raise _ _ _ Hd) as He. destruct e; try discriminate He.
  reflexivity.
Qed.

(** On a path whose suffix is [.csv], in any letter case, [read_table] is
    the result of the encoding loop. *)
Lemma read_table_csv (E : engines) (d : host) (input_path : string) :
  lstrip "." (lower (path_suffix input_path)) = "csv" ->
  read_table E input_path d
  = loop_result (csv_loop E d input_path 0 csv_encodings).
Proof. intros H. unfold read_table. rewrite H. reflexivity. Qed.

Lemma loop_result_parsed (attempt : nat) (encoding : string)
    (r : frame + string) :
  loop_result (Spec.parsed_exit attempt encoding r) = parsed r.
Proof. destruct r; reflexivity. Qed.

(** What [convert_spreadsheet] does with the outcome of the reading step. *)
Lemma convert_spreadsheet_read_ok
    (E : engines) (input_path output_path target : string) (d : host)
    (df : frame) :
  read_table E input_path d = Ok df ->
  (target = "xlsx" ->
   convert_spreadsheet E input_path output_path target d
   = let c := ToExcel df output_path
                      [("index", PBool false); ("engine", PStr "openpyxl")] in
     ({| files := fst (run E c (files d));
         engine_log := engine_log d ++ [c] |},
      match snd (run E c (files d)) with
      | None => Ok output_path
      | Some e =>
          Raise (ConversionError
                   ("Не удалось конвертировать таблицу: " ++ exn_str e))
      end))
  /\ (target = "csv" ->
      convert_spreadsheet E input_path output_path target d
      = let c := ToCsv df output_path
                       [("index", PBool false); ("encoding", PStr "utf-8")] in
        ({| files := fst (run E c (files d));
            engine_log := engine_log d ++ [c] |},
         match snd (run E c (files d)) with
         | None => Ok output_path
         | Some e =>
             Raise (ConversionError
                      ("Не удалось конвертировать таблицу: " ++ exn_str e))
         end)).
Proof.
  intros Hdf. unfold convert_spreadsheet, run_in_executor, run_call.
  rewrite Hdf.
  split; intros ->; cbn [String.eqb Ascii.eqb Bool.eqb]; cbv zeta;
    match goal with
    | |- context [run E ?c (files d)] =>
        destruct (run E c (files d)) as [f' [e |]]; reflexivity
    end.
Qed.

Lemma convert_spreadsheet_read_raise
    (E : engines) (input_path output_path target : string) (d : host)
    (e : exn) :
  read_table E input_path d = Raise e ->
  convert_spreadsheet E input_path output_path target d
  = (d, Raise (ConversionError
                 ("Не удалось конвертировать таблицу: " ++ exn_str e))).
Proof.
  intros He. unfold convert_spreadsheet, run_in_executor. now rewrite He.
Qed.

(** C7: on a readable input whose suffix is [.csv], the spreadsheet
    converter tries utf-8, then cp1251, then latin-1, in this order, and the
    table it reads is what the parser makes of the text of the first
    encoding that decodes the bytes: utf-8 when the bytes are valid UTF-8
    (first attempt), cp1251 when they are not but decode as CP1251 (second
    attempt), latin-1 otherwise (third attempt).  The frame read is the one
    [convert_spreadsheet] hands to the xlsx or csv writer, in its single
    engine call, and a failure of the reading step leaves the converter as a
    conversion error without any engine call. *)
Theorem C7_csv_encodings_tried_in_order
    (E : engines) (d : host) (input_path output_path : string)
    (bytes : list byte) :
  files d !! input_path = Some bytes ->
  lstrip "." (lower (path_suffix input_path)) = "csv" ->
  csv_encodings = ["utf-8"; "cp1251"; "latin-1"]
  /\ (forall t, decode "utf-8" bytes = Ok t ->
        csv_loop E d input_path 0 csv_encodings
        = Spec.parsed_exit 1 "utf-8" (csv_parse E t)
        /\ read_table E input_path d = parsed (csv_parse E t))
  /\ (forall e t, decode "utf-8" bytes = Raise e ->
        decode "cp1251" bytes = Ok t ->
        csv_loop E d input_path 0 csv_encodings
        = Spec.parsed_exit 2 "cp1251" (csv_parse E t)
        /\ read_table E input_path d = parsed (csv_parse E t))
  /\ (forall e1 e2, decode "utf-8" bytes = Raise e1 ->
        decode "cp1251" bytes = Raise e2 ->
        csv_loop E d input_path 0 csv_encodings
        = Spec.parsed_exit 3 "latin-1" (csv_parse E (map byte_val bytes))
        /\ read_table E input_path d
           = parsed (csv_parse E (map byte_val bytes)))
  /\ (forall df, read_table E input_path d = Ok df ->
        convert_spreadsheet E input_path output_path "xlsx" d
        = let c := ToExcel df output_path
                           [("index", PBool false); ("engine", PStr "openpyxl")] in
          ({| files := fst (run E c (files d));
              engine_log := engine_log d ++ [c] |},
           match snd (run E c (files d)) with
           | None => Ok output_path
           | Some e =>
               Raise (ConversionError
                        ("Не удалось конвертировать таблицу: " ++ exn_str e))
           end))
  /\ (forall df, read_table E input_path d = Ok df ->
        convert_spreadsheet E input_path output_path "csv" d
        = let c := ToCsv df output_path
                         [("index", PBool false); ("encoding", PStr "utf-8")] in
          ({| files := fst (run E c (files d));
              engine_log := engine_log d ++ [c] |},
           match snd (run E c (files d)) with
           | None => Ok output_path
           | Some e =>
               Raise (ConversionError
                        ("Не удалось конвертировать таблицу: " ++ exn_str e))
           end))
  /\ (forall target e, read_table E input_path d = Raise e ->
        convert_spreadsheet E input_path output_path target d
        = (d, Raise (ConversionError
                       ("Не удалось конвертировать таблицу: " ++ exn_str e)))).
Proof.
  intros Hf Hext.
  pose proof (read_table_csv E d input_path Hext) as Hrt.
  unfold csv_encodings in *.
  assert (H1 : forall t, decode "utf-8" bytes = Ok t ->
            csv_loop E d input_path 0 ["utf-8"; "cp1251"; "latin-1"]
            = Spec.parsed_exit 1 "utf-8" (csv_parse E t)).
  { intros t Hd. now apply (loop_round_ok E d _ _ bytes). }
  assert (H2 : forall e t, decode "utf-8" bytes = Raise e ->
            decode "cp1251" bytes = Ok t ->
            csv_loop E d input_path 0 ["utf-8"; "cp1251"; "latin-1"]
            = Spec.parsed_exit 2 "cp1251" (csv_parse E t)).
  { intros e t Hd1 Hd2.
    rewrite (loop_round_fail E d _ _ bytes e) by assumption.
    now apply (loop_round_ok E d _ _ bytes). }
  assert (H3 : forall e1 e2, decode "utf-8" bytes = Raise e1 ->
            decode "cp1251" bytes = Raise e2 ->
            csv_loop E d input_path 0 ["utf-8"; "cp1251"; "latin-1"]
            = Spec.parsed_exit 3 "latin-1" (csv_parse E (map byte_val bytes))).
  { intros e1 e2 Hd1 Hd2.
    rewrite (loop_round_fail E d _ _ bytes e1) by assumption.
    rewrite (loop_round_fail E d _ _ bytes e2) by assumption.
    apply (loop_round_ok E d _ _ bytes); [assumption | apply decode_latin1]. }
  split; [reflexivity |].
  split.
  { intros t Hd. rewrite Hrt, (H1 t Hd). split; [reflexivity |].
    apply loop_result_parsed. }
  split.
  { intros e t Hd1 Hd2. rewrite Hrt, (H2 e t Hd1 Hd2). split; [reflexivity |].
    apply loop_result_parsed. }
  split.
  { intros e1 e2 Hd1 Hd2. rewrite Hrt, (H3 e1 e2 Hd1 Hd2).
    split; [reflexivity |]. apply loop_result_parsed. }
  split.
  { intros df Hdf.
    exact (proj1 (convert_spreadsheet_read_ok E input_path output_path "xlsx"
                    d df Hdf) eq_refl). }
  split.
  { intros df Hdf.
    exact (proj2 (convert_spreadsheet_read_ok E input_path output_path "csv"
                    d df Hdf) eq_refl). }
  intros target e He. now apply convert_spreadsheet_read_raise.
Qed.

(** A CSV file in CP1251 whose bytes are not valid UTF-8 is read at the
    second attempt, and its table is written to the xlsx output. *)
Lemma C7_cp1251_witness :
  decode "utf-8" Sample.cp1251_csv
  = Raise (UnicodeDecodeError "'utf-8' codec can't decode bytes")
  /\ csv_loop Sample.engines_ok
              (Sample.host_with "/tmp/input_7_BQACAgIA.csv" Sample.cp1251_csv)
              "/tmp/input_7_BQACAgIA.csv" 0 csv_encodings
     = Break 2 "cp1251" [[[1048; 1084; 1103; 10; 1048; 1074; 1072; 1085; 10]]]
  /\ convert_spreadsheet
       Sample.engines_ok "/tmp/input_7_BQACAgIA.csv"
       "/tmp/output_7_BQACAgIA.xlsx" "xlsx"
       (Sample.host_with "/tmp/input_7_BQACAgIA.csv" Sample.cp1251_csv)
     = ({| files := <["/tmp/output_7_BQACAgIA.xlsx" := []]>
                      {["/tmp/input_7_BQACAgIA.csv" := Sample.cp1251_csv]};
           engine_log :=
             [ToExcel [[[1048; 1084; 1103; 10; 1048; 1074; 1072; 1085; 10]]]
                      "/tmp/output_7_BQACAgIA.xlsx"
                      [("index", PBool false); ("engine", PStr "openpyxl")]] |},
        Ok "/tmp/output_7_BQACAgIA.xlsx").
Proof.
  split; [reflexivity |].
  destruct (C7_csv_encodings_tried_in_order
              Sample.engines_ok
              (Sample.host_with "/tmp/input_7_BQACAgIA.csv" Sample.cp1251_csv)
              "/tmp/input_7_BQACAgIA.csv" "/tmp/output_7_BQACAgIA.xlsx"
              Sample.cp1251_csv eq_refl eq_refl)
    as (_ & _ & H2 & _ & Hx & _).
  destruct (H2 (UnicodeDecodeError "'utf-8' codec can't decode bytes")
               [1048; 1084; 1103; 10; 1048; 1074; 1072; 1085; 10]
               eq_refl eq_refl) as [Hloop Hread].
  split; [exact Hloop |].
  exact (Hx [[[1048; 1084; 1103; 10; 1048; 1074; 1072; 1085; 10]]] Hread).
Defined.

(** C9 (as amended): decoding with latin-1 never raises, so the [else]
    clause of the encoding loop is unreachable: the loop is left on or
    before the third attempt, either by [break] with one of the three
    encodings or by an exception of [read_csv] that is not a
    [UnicodeDecodeError] and leaves the whole function. *)
Theorem C9_csv_fallback_unreachable
    (E : engines) (d : host) (input_path : string) :
  (forall bytes, decode "latin-1" bytes = Ok (map byte_val bytes))
  /\ match csv_loop E d input_path 0 csv_encodings with
     | Break attempt encoding _ =>
         (attempt <= 3)%nat /\ In encoding csv_encodings
     | Escaped attempt e =>
         (attempt <= 3)%nat /\ Spec.is_decode_error e = false
     | Else _ => False
     end.
Proof.
  split; [exact decode_latin1 |].
  unfold csv_encodings. cbn [csv_loop]. unfold read_csv, read_bytes.
  destruct (files d !! input_path) as [bytes |]; [| cbn; split; [lia | reflexivity]].
  destruct (decode "utf-8" bytes) as [t1 | e1] eqn:H1.
  { destruct (csv_parse E t1); cbn; split; first [lia | reflexivity | tauto]. }
  pose proof (decode_raise _ _ _ H1) as He1. destruct e1; try discriminate He1.
  destruct (decode "cp1251" bytes) as [t2 | e2] eqn:H2.
  { destruct (csv_parse E t2); cbn; split; first [lia | reflexivity | tauto]. }
  pose proof (decode_raise _ _ _ H2) as He2. destruct e2; try discriminate He2.
  rewrite decode_latin1.
  destruct (csv_parse E _); cbn; split; first [lia | reflexivity | tauto].
Qed.

(** C9, counterexample: on an empty CSV file the bytes decode as UTF-8 but
    the parser rejects the empty text; the loop is left at the first attempt
    by that exception, not by [break].  The same happens, whatever the
    parser, when the input file is not there. *)
Lemma C9_counterexample_parser_error :
  csv_loop Sample.engines_ok (Sample.host_with "/tmp/input_7_BQACAgIA.csv" [])
           "/tmp/input_7_BQACAgIA.csv" 0 csv_encodings
  = Escaped 1 (Exception "No columns to parse from file")
  /\ csv_loop Sample.engines_ok Sample.empty_host
              "/tmp/input_7_BQACAgIA.csv" 0 csv_encodings
     = Escaped 1 (Exception "No such file or directory").
Proof. split; reflexivity. Qed.

End CsvFacts.

(** ** Further properties of the registry and of the keyboard *)

Section RegistryFacts.
Import Inline.

Lemma lower_ascii_idem (c : ascii) : lower_ascii (lower_ascii c) = lower_ascii c.
Proof. destruct c as [[] [] [] [] [] [] [] []]; reflexivity. Qed.

Lemma lower_idem (s : string) : lower (lower s) = lower s.
Proof.
  induction s as [| c s IH]; [reflexivity |].
  cbn. now rewrite lower_ascii_idem, IH.
Qed.

Lemma lower_ascii_dot (c : ascii) :
  Ascii.eqb "." (lower_ascii c) = Ascii.eqb "." c.
Proof. destruct c as [[] [] [] [] [] [] [] []]; reflexivity. Qed.

Lemma lower_lstrip_dot (s : string) :
  lower (lstrip "." s) = lstrip "." (lower s).
Proof.
  induction s as [| c s IH]; [reflexivity |].
  cbn [lstrip lower]. rewrite lower_ascii_dot.
  destruct (Ascii.eqb "." c); [exact IH | reflexivity].
Qed.

(** The normalized extension is a fixed point of the normalization done
    again by [get_file_type]. *)
Lemma get_file_type_normalized (e : string) :
  get_file_type (Spec.normalized e) = dict_get FILE_TYPE_MAP (Spec.normalized e).
Proof.
  unfold get_file_type, Spec.normalized.
  now rewrite lower_lstrip_dot, lower_idem.
Qed.

Lemma dict_get_In {V : Type} (d : dict V) (k : string) (v : V) :
  dict_get d k = Some v -> In (k, v) d.
Proof.
  induction d as [| [k' v'] d IH]; cbn; [discriminate |].
  destruct (String.eqb_spec k k') as [-> | _].
  - intros [= ->]. now left.
  - intros H. right. now apply IH.
Qed.

Lemma dict_get_keys {V : Type} (d : dict V) (k : string) :
  dict_get d k = None <-> ~ In k (dict_keys d).
Proof.
  induction d as [| [k' v'] d IH]; cbn; [tauto |].
  destruct (String.eqb_spec k k') as [-> | Hne].
  - split; [discriminate | intros H; exfalso; apply H; now left].
  - rewrite IH. split; [intros H [E | Hin]; [now subst | tauto] | tauto].
Qed.

(** Every type a registry entry names is a key of the option table, with
    a non-empty list of colon-free formats. *)
Lemma types_have_options (k t : string) :
  dict_get FILE_TYPE_MAP k = Some t ->
  String.eqb t "" = false
  /\ exists opts, dict_get CONVERSION_OPTIONS t = Some opts
       /\ formats opts <> []
       /\ Forall (fun fmt => contains ":" fmt = false) (formats opts).
Proof.
  intros H. apply dict_get_In in H. unfold FILE_TYPE_MAP in H.
  repeat (destruct H as [H | H];
          [injection H as <- <-; split; [reflexivity |];
           eexists; split; [reflexivity |];
           split; [discriminate | repeat constructor] |]).
  destruct H.
Qed.

(** X1: an extension the registry classifies always has an entry in the
    option table, so the guard [file_type not in CONVERSION_OPTIONS] never
    fires; for an extension written in ASCII, the keyboard and the
    conversion information exist for the same inputs, namely those whose
    normalized extension (lower case, leading dots stripped) is a key of the
    registry. *)
Theorem X1_keyboard_and_info_exist_for_registry_keys (e file_id : string) :
  is_ascii e = true ->
  (create_format_keyboard e file_id = None
   <-> ~ In (Spec.normalized e) get_supported_extensions)
  /\ (get_conversion_info e = None
      <-> ~ In (Spec.normalized e) get_supported_extensions).
Proof.
  intros _.
  unfold create_format_keyboard, get_conversion_info, get_supported_extensions.
  fold (Spec.normalized e). rewrite get_file_type_normalized.
  rewrite <- dict_get_keys.
  destruct (dict_get FILE_TYPE_MAP (Spec.normalized e)) as [t |] eqn:Ht.
  - destruct (types_have_options _ _ Ht) as (-> & opts & -> & _).
    split; split; discriminate.
  - split; split; reflexivity.
Qed.

Lemma X1_keyboard_and_info_witness :
  create_format_keyboard ".Exe" "BQACAgIAAxkBAAIB" = None
  /\ get_conversion_info ".Exe" = None
  /\ create_format_keyboard ".PNG" "BQACAgIAAxkBAAIB" <> None.
Proof.
  destruct (X1_keyboard_and_info_exist_for_registry_keys
              ".Exe" "BQACAgIAAxkBAAIB" eq_refl) as [[_ Hk] [_ Hi]].
  destruct (X1_keyboard_and_info_exist_for_registry_keys
              ".PNG" "BQACAgIAAxkBAAIB" eq_refl) as [[Hp _] _].
  split; [| split].
  - apply Hk. vm_compute. intuition discriminate.
  - apply Hi. vm_compute. intuition discriminate.
  - intros H. apply (Hp H). vm_compute. tauto.
Defined.

Lemma keyboard_targets_buttons (opts : options) (l : list string) :
  Forall (fun fmt => contains ":" fmt = false) l ->
  keyboard_targets {| buttons := (map (format_button opts) l ++ [cancel_button])%list;
                      row_sizes := [2; 2; 2; 1]%nat |} = l.
Proof.
  unfold keyboard_targets. cbn [buttons].
  induction 1 as [| fmt l Hfmt _ IH]; [reflexivity |].
  cbn [map app omap list_omap]. cbn [format_button callback_data].
  rewrite (split_token fmt Hfmt). cbn [String.eqb Ascii.eqb Bool.eqb].
  f_equal. exact IH.
Qed.

Lemma Forall_filter {A : Type} (P : A -> Prop) (f : A -> bool) (l : list A) :
  Forall P l -> Forall P (List.filter f l).
Proof.
  induction 1 as [| x l Hx _ IH]; cbn; [constructor |].
  destruct (f x); [constructor; assumption | assumption].
Qed.

(** What [create_format_keyboard] returns, in one equation. *)
Lemma create_format_keyboard_some (e file_id : string) (kb : keyboard) :
  create_format_keyboard e file_id = Some kb ->
  exists t opts,
    dict_get FILE_TYPE_MAP (Spec.normalized e) = Some t
    /\ dict_get CONVERSION_OPTIONS t = Some opts
    /\ kb = {| buttons := (map (format_button opts)
                               (keyboard_formats (Spec.normalized e) opts)
                           ++ [cancel_button])%list;
               row_sizes := [2; 2; 2; 1]%nat |}
    /\ keyboard_targets kb = keyboard_formats (Spec.normalized e) opts.
Proof.
  unfold create_format_keyboard. fold (Spec.normalized e).
  rewrite get_file_type_normalized.
  destruct (dict_get FILE_TYPE_MAP (Spec.normalized e)) as [t |] eqn:Ht;
    [| discriminate].
  destruct (types_have_options _ _ Ht) as (-> & opts & Ho & _ & Hcolon).
  rewrite Ho. intros [= <-]. exists t, opts. repeat split; try assumption.
  apply keyboard_targets_buttons, Forall_filter, Hcolon.
Qed.

(** X2: the tokens of a keyboard decode to the list it was built from.  The
    buttons of every keyboard are one [cvt:] button per offered target, in
    order, followed by the cancel button, and the offered targets are the
    formats of the file type that are not excluded for the source. *)
Theorem X2_keyboard_tokens_round_trip (e file_id : string) (kb : keyboard) :
  create_format_keyboard e file_id = Some kb ->
  map callback_data (buttons kb)
  = (map (String.append "cvt:") (keyboard_targets kb) ++ ["cancel"])%list
  /\ exists t opts,
       get_file_type (Spec.normalized e) = Some t
       /\ dict_get CONVERSION_OPTIONS t = Some opts
       /\ keyboard_targets kb
          = List.filter
              (fun fmt => negb (mem fmt (exclude_formats (Spec.normalized e))))
              (formats opts).
Proof.
  intros H. destruct (create_format_keyboard_some e file_id kb H)
    as (t & opts & Ht & Ho & Hkb & Htargets).
  split.
  - rewrite Htargets. subst kb. cbn [buttons].
    rewrite map_app, map_map. reflexivity.
  - exists t, opts. rewrite get_file_type_normalized. now repeat split.
Qed.

Lemma X2_keyboard_tokens_witness :
  map callback_data (buttons (Sample.keyboard_for ".XLSX"))
  = (map (String.append "cvt:") (keyboard_targets (Sample.keyboard_for ".XLSX"))
     ++ ["cancel"])%list.
Proof.
  exact (proj1 (X2_keyboard_tokens_round_trip
                  ".XLSX" "" (Sample.keyboard_for ".XLSX") eq_refl)).
Defined.

(** X3: whatever the spelling of the extension (letter case, leading dots),
    a keyboard never offers the normalized source extension, and for a jpg
    or jpeg source it offers neither of the two. *)
Theorem X3_keyboard_never_offers_source (e file_id : string) (kb : keyboard) :
  create_format_keyboard e file_id = Some kb ->
  ~ In (Spec.normalized e) (keyboard_targets kb)
  /\ (In (Spec.normalized e) ["jpg"; "jpeg"] ->
      ~ In "jpg" (keyboard_targets kb) /\ ~ In "jpeg" (keyboard_targets kb)).
Proof.
  intros H. destruct (create_format_keyboard_some e file_id kb H)
    as (t & opts & _ & _ & _ & ->).
  split.
  - apply keyboard_formats_exclude. unfold exclude_formats.
    destruct (mem (Spec.normalized e) ["jpg"; "jpeg"]) eqn:Hm.
    + now apply mem_In.
    + now left.
  - intros Hj. apply mem_In in Hj.
    split; apply keyboard_formats_exclude; unfold exclude_formats; rewrite Hj;
      cbn; tauto.
Qed.

Lemma X3_keyboard_never_offers_source_witness :
  ~ In "jpeg" (Spec.legalTargets "..JPEG") /\ ~ In "jpg" (Spec.legalTargets "..JPEG").
Proof.
  destruct (X3_keyboard_never_offers_source
              "..JPEG" ""
              (match create_format_keyboard "..JPEG" "" with
               | Some kb => kb
               | None => {| buttons := []; row_sizes := [] |}
               end) eq_refl) as [_ Hj].
  destruct (Hj (or_intror (or_introl eq_refl))) as [Hjpg Hjpeg].
  split; assumption.
Defined.

End RegistryFacts.

Section InfoFacts.
Import Inline.

Lemma get_conversion_info_some (e : string) (info : conversion_info) :
  get_conversion_info e = Some info ->
  exists t opts,
    dict_get FILE_TYPE_MAP (Spec.normalized e) = Some t
    /\ dict_get CONVERSION_OPTIONS t = Some opts
    /\ info_type info = t
    /\ info_emoji info = emoji opts
    /\ available_formats info
       = List.filter (fun fmt => negb (String.eqb fmt (Spec.normalized e)))
                     (formats opts).
Proof.
  unfold get_conversion_info. fold (Spec.normalized e).
  rewrite get_file_type_normalized.
  destruct (dict_get FILE_TYPE_MAP (Spec.normalized e)) as [t |] eqn:Ht;
    [| discriminate].
  destruct (types_have_options _ _ Ht) as (-> & opts & Ho & _).
  rewrite Ho. intros [= <-]. exists t, opts. now repeat split.
Qed.

(** X4: the list of [get_conversion_info] never contains the normalized
    source extension, and it is the list of the keyboard for every source
    except jpeg (where it keeps the alias jpg). *)
Theorem X4_info_is_keyboard_list_except_for_jpeg
    (e file_id : string) (kb : keyboard) (info : conversion_info) :
  create_format_keyboard e file_id = Some kb ->
  get_conversion_info e = Some info ->
  ~ In (Spec.normalized e) (available_formats info)
  /\ (Spec.normalized e <> "jpeg" ->
      available_formats info = keyboard_targets kb).
Proof.
  intros Hkb Hinfo.
  destruct (create_format_keyboard_some e file_id kb Hkb)
    as (t & opts & Ht & Ho & _ & ->).
  destruct (get_conversion_info_some e info Hinfo)
    as (t' & opts' & Ht' & Ho' & _ & _ & ->).
  rewrite Ht in Ht'. injection Ht' as <-. rewrite Ho in Ho'. injection Ho' as <-.
  split.
  - intros Hin. apply filter_In in Hin. destruct Hin as [_ Hneq].
    rewrite String.eqb_refl in Hneq. discriminate.
  - intros Hne. unfold keyboard_formats, exclude_formats.
    destruct (mem (Spec.normalized e) ["jpg"; "jpeg"]) eqn:Hm.
    + apply mem_In in Hm. destruct Hm as [Hj | [Hj | []]]; [| congruence].
      rewrite <- Hj in *. vm_compute in Ht. injection Ht as <-.
      vm_compute in Ho. injection Ho as <-. reflexivity.
    + apply filter_ext. intros fmt. cbn. now rewrite orb_false_r.
Qed.

Lemma X4_info_is_keyboard_list_witness :
  ~ In "docx" (available_formats (Sample.info_for ".DOCX"))
  /\ available_formats (Sample.info_for ".DOCX")
     = keyboard_targets (Sample.keyboard_for ".DOCX").
Proof.
  destruct (X4_info_is_keyboard_list_except_for_jpeg
              ".DOCX" "" (Sample.keyboard_for ".DOCX") (Sample.info_for ".DOCX")
              eq_refl eq_refl) as [H1 H2].
  split; [exact H1 | apply H2; discriminate].
Defined.

End InfoFacts.

(** ** Further properties of the reception of a file *)

Section ReceptionFacts.
Import Converter Bot.

(** What the registry offers for each of its keys. *)
Lemma supported_offer (ext : string) :
  In ext Inline.get_supported_extensions ->
  String.eqb ext "" = false
  /\ mem ext Inline.get_supported_extensions = true
  /\ exists info kb a l,
       Inline.get_conversion_info ext = Some info
       /\ Inline.available_formats info = a :: l
       /\ (forall file_id, Inline.create_format_keyboard ext file_id = Some kb)
       /\ Inline.keyboard_targets kb = Spec.legalTargets ext
       /\ Spec.legalTargets ext <> []
       /\ Forall (fun t => contains ":" t = false) (Spec.legalTargets ext).
Proof.
  intros H. unfold Inline.get_supported_extensions, Inline.FILE_TYPE_MAP in H.
  cbn [dict_keys map fst] in H.
  repeat (destruct H as [<- | H];
          [split; [reflexivity |]; split; [reflexivity |];
           eexists _, _, _, _;
           split; [reflexivity |]; split; [reflexivity |];
           split; [intros file_id; reflexivity |];
           split; [reflexivity |];
           split; [vm_compute; discriminate | vm_compute; repeat constructor] |]).
  destruct H.
Qed.

Lemma process_file_small (V : env) (uid : Z) (file_id file_name : string)
    (file_size : Z) (w : world) :
  file_size <= MAX_FILE_SIZE V ->
  process_file V uid file_id file_name file_size w
  = classify_and_offer V uid file_id file_name file_size w.
Proof.
  intros Hle. unfold process_file.
  now replace (MAX_FILE_SIZE V <? file_size) with false
    by (symmetry; apply Z.ltb_ge; exact Hle).
Qed.

Lemma classify_unsupported (V : env) (uid : Z) (file_id file_name : string)
    (file_size : Z) (w : world) :
  ~ In (Spec.extension_of file_name) Inline.get_supported_extensions ->
  classify_and_offer V uid file_id file_name file_size w
  = call V (MessageAnswer uid (Unsupported file_name) None) w.
Proof.
  intros Hno. unfold classify_and_offer. fold (Spec.extension_of file_name).
  destruct (mem (Spec.extension_of file_name) Inline.get_supported_extensions)
    eqn:Hm.
  - apply mem_In in Hm. contradiction.
  - now rewrite orb_true_r.
Qed.

(** The session [process_file] stores for an accepted file. *)
Lemma classify_supported (V : env) (uid : Z) (file_id file_name : string)
    (file_size : Z) (w : world) :
  In (Spec.extension_of file_name) Inline.get_supported_extensions ->
  exists info kb,
    Inline.get_conversion_info (Spec.extension_of file_name) = Some info
    /\ Inline.create_format_keyboard (Spec.extension_of file_name) file_id = Some kb
    /\ Inline.keyboard_targets kb = Spec.legalTargets (Spec.extension_of file_name)
    /\ classify_and_offer V uid file_id file_name file_size w
       = ({| storage :=
               <[uid := {| state := Some waiting_for_format;
                           data := <["file_extension" := Spec.extension_of file_name]>
                                   (<["file_name" := file_name]>
                                    (<["file_id" := file_id]>
                                     (data (get_session uid w)))) |}]>
               (storage w);
             machine := machine w;
             sent := (sent w
                      ++ [MessageAnswer uid
                            (FileReceived (Inline.info_emoji info) file_name file_size)
                            (Some kb)])%list |},
          match tg V (MessageAnswer uid
                        (FileReceived (Inline.info_emoji info) file_name file_size)
                        (Some kb)) with
          | None => Ok tt
          | Some e => Raise e
          end).
Proof.
  intros Hin.
  destruct (supported_offer _ Hin)
    as (Hne & Hm & info & kb & a & l & Hinfo & Hav & Hkb & Ht & _).
  exists info, kb. repeat split; try easy.
  unfold classify_and_offer. fold (Spec.extension_of file_name).
  rewrite Hne, Hm, Hinfo, Hav, Hkb. cbn [negb orb].
  unfold bind, update_data, set_state, set_session, call, get_session.
  cbn [storage machine sent state data foldl fst snd].
  rewrite lookup_insert_eq. cbn [default state data].
  rewrite insert_insert_eq. reflexivity.
Qed.

End ReceptionFacts.

Section ReceptionTheorems.
Import Converter Bot.

(** X5: a file within the size limit whose name, written in ASCII, has no
    extension, or one that is not a key of the registry, is answered with
    the unsupported-format notice and nothing else happens: no pending
    request is stored and the host is not touched. *)
Theorem X5_unsupported_file_rejected
    (V : env) (uid : Z) (file_id file_name : string) (file_size : Z) (w : world) :
  file_size <= MAX_FILE_SIZE V ->
  is_ascii file_name = true ->
  ~ In (Spec.extension_of file_name) Inline.get_supported_extensions ->
  storage (fst (process_file V uid file_id file_name file_size w)) = storage w
  /\ machine (fst (process_file V uid file_id file_name file_size w)) = machine w
  /\ Spec.calls_of (process_file V uid file_id file_name file_size) w
     = [MessageAnswer uid (Unsupported file_name) None]
  /\ Spec.reported (process_file V uid file_id file_name file_size) w
     = [Spec.UnsupportedFormat].
Proof.
  intros Hle _ Hno. unfold Spec.reported, Spec.calls_of.
  rewrite process_file_small by exact Hle.
  rewrite classify_unsupported by exact Hno.
  fold (Spec.calls_of (call V (MessageAnswer uid (Unsupported file_name) None)) w).
  rewrite calls_of_call. repeat split.
Qed.

Lemma X5_unsupported_file_witness :
  Spec.reported
    (process_file Sample.env_ok 7 "BQACAgIAAxkBAAIB" "setup.exe" 1024)
    Sample.world_png
  = [Spec.UnsupportedFormat]
  /\ Spec.reported
       (process_file Sample.env_ok 7 "BQACAgIAAxkBAAIB" "Makefile" 1024)
       Sample.world_png
     = [Spec.UnsupportedFormat].
Proof.
  split.
  - apply (X5_unsupported_file_rejected
             Sample.env_ok 7 "BQACAgIAAxkBAAIB" "setup.exe" 1024 Sample.world_png).
    + vm_compute. discriminate.
    + reflexivity.
    + vm_compute. intuition discriminate.
  - apply (X5_unsupported_file_rejected
             Sample.env_ok 7 "BQACAgIAAxkBAAIB" "Makefile" 1024 Sample.world_png).
    + vm_compute. discriminate.
    + reflexivity.
    + vm_compute. intuition discriminate.
Defined.

(** X6: a file within the size limit whose extension is a key of the
    registry is accepted: the session of the user is put in the state
    waiting-for-format with the file handle, the file name and the extension
    written over the data it held, so that this file is now the pending
    request, replacing any earlier one; the one message sent carries a
    keyboard whose targets are the legal targets of the extension. *)
Theorem X6_supported_file_becomes_pending_request
    (V : env) (uid : Z) (file_id file_name : string) (file_size : Z) (w : world) :
  file_size <= MAX_FILE_SIZE V ->
  In (Spec.extension_of file_name) Inline.get_supported_extensions ->
  file_id <> "" ->
  get_session uid (fst (process_file V uid file_id file_name file_size w))
  = {| state := Some waiting_for_format;
       data := <["file_extension" := Spec.extension_of file_name]>
               (<["file_name" := file_name]>
                (<["file_id" := file_id]> (data (get_session uid w)))) |}
  /\ Spec.pending uid (fst (process_file V uid file_id file_name file_size w))
     = Some (file_id, file_name, Spec.extension_of file_name)
  /\ Spec.reported (process_file V uid file_id file_name file_size) w = []
  /\ exists emoji kb,
       Spec.calls_of (process_file V uid file_id file_name file_size) w
       = [MessageAnswer uid (FileReceived emoji file_name file_size) (Some kb)]
       /\ Inline.keyboard_targets kb
          = Spec.legalTargets (Spec.extension_of file_name)
       /\ Spec.legalTargets (Spec.extension_of file_name) <> [].
Proof.
  intros Hle Hin Hid.
  destruct (classify_supported V uid file_id file_name file_size w Hin)
    as (info & kb & _ & _ & Hkb & Heq).
  destruct (supported_offer _ Hin)
    as (Hne & _ & info' & kb' & a & l & _ & _ & _ & _ & Hnonempty & _).
  unfold Spec.reported, Spec.calls_of.
  rewrite process_file_small by exact Hle. rewrite Heq. cbn [fst storage sent].
  assert (Hs : get_session uid
                 {| storage :=
                      <[uid := {| state := Some waiting_for_format;
                                  data := <["file_extension" := Spec.extension_of file_name]>
                                          (<["file_name" := file_name]>
                                           (<["file_id" := file_id]>
                                            (data (get_session uid w)))) |}]>
                      (storage w);
                    machine := machine w;
                    sent := (sent w
                             ++ [MessageAnswer uid
                                   (FileReceived (Inline.info_emoji info)
                                                 file_name file_size)
                                   (Some kb)])%list |}
               = {| state := Some waiting_for_format;
                    data := <["file_extension" := Spec.extension_of file_name]>
                            (<["file_name" := file_name]>
                             (<["file_id" := file_id]>
                              (data (get_session uid w)))) |}).
  { unfold get_session. cbn [storage]. now rewrite lookup_insert_eq. }
  split; [exact Hs |]. split.
  - unfold Spec.pending. rewrite Hs. cbn [data].
    rewrite lookup_insert_ne by discriminate.
    rewrite lookup_insert_ne by discriminate.
    rewrite lookup_insert_eq, lookup_insert_eq.
    rewrite lookup_insert_ne by discriminate. rewrite lookup_insert_eq.
    rewrite Hne. cbn [orb default].
    destruct (String.eqb_spec file_id "") as [E | _]; [contradiction | reflexivity].
  - rewrite skipn_new. split; [reflexivity |].
    exists (Inline.info_emoji info), kb. now repeat split.
Qed.

Lemma X6_supported_file_witness :
  Spec.pending 7
    (fst (process_file Sample.env_ok 7 "BQACAgIAAxkBAAIC" "Holiday.JPEG" 2097152
                       Sample.world_png))
  = Some ("BQACAgIAAxkBAAIC", "Holiday.JPEG", "jpeg").
Proof.
  apply (X6_supported_file_becomes_pending_request
           Sample.env_ok 7 "BQACAgIAAxkBAAIC" "Holiday.JPEG" 2097152
           Sample.world_png).
  - vm_compute. discriminate.
  - vm_compute. intuition.
  - discriminate.
Defined.

(** X7: [process_file] acts on the session of the sender only: whatever
    the file, the session of every other user and the host are left as they
    were. *)
Theorem X7_process_file_touches_only_the_sender
    (V : env) (uid other : Z) (file_id file_name : string) (file_size : Z)
    (w : world) :
  other <> uid ->
  storage (fst (process_file V uid file_id file_name file_size w)) !! other
  = storage w !! other
  /\ machine (fst (process_file V uid file_id file_name file_size w)) = machine w.
Proof.
  intros Hne. unfold process_file.
  destruct (MAX_FILE_SIZE V <? file_size); [split; reflexivity |].
  destruct (in_dec String.string_dec (Spec.extension_of file_name)
                   Inline.get_supported_extensions) as [Hin | Hno].
  - destruct (classify_supported V uid file_id file_name file_size w Hin)
      as (info & kb & _ & _ & _ & ->).
    cbn [fst storage machine]. split; [| reflexivity].
    now rewrite lookup_insert_ne by congruence.
  - rewrite classify_unsupported by exact Hno. split; reflexivity.
Qed.

End ReceptionTheorems.

Section SubmitThenChoose.
Import Converter Bot.

Lemma X7_process_file_witness :
  storage (fst (process_file Sample.env_ok 8 "BQACAgIAAxkBAAIC" "song.mp3" 4096
                             Sample.world_png)) !! 7
  = storage Sample.world_png !! 7.
Proof.
  apply (X7_process_file_touches_only_the_sender
           Sample.env_ok 8 7 "BQACAgIAAxkBAAIC" "song.mp3" 4096 Sample.world_png).
  discriminate.
Defined.

Lemma accepted_pending (V : env) (uid : Z) (file_id file_name : string)
    (file_size : Z) (w : world) :
  file_size <= MAX_FILE_SIZE V ->
  In (Spec.extension_of file_name) Inline.get_supported_extensions ->
  file_id <> "" ->
  Spec.pending uid (fst (process_file V uid file_id file_name file_size w))
  = Some (file_id, file_name, Spec.extension_of file_name).
Proof.
  intros Hle Hin Hid.
  destruct (classify_supported V uid file_id file_name file_size w Hin)
    as (info & kb & _ & _ & _ & Heq).
  destruct (supported_offer _ Hin) as (Hne & _).
  rewrite process_file_small by exact Hle. rewrite Heq.
  unfold Spec.pending, get_session. cbn [fst storage].
  rewrite lookup_insert_eq. cbn [default from_option id data].
  rewrite lookup_insert_ne by discriminate.
  rewrite lookup_insert_ne by discriminate.
  rewrite lookup_insert_eq, lookup_insert_eq.
  rewrite lookup_insert_ne by discriminate. rewrite lookup_insert_eq.
  rewrite Hne. cbn [orb default].
  destruct (String.eqb_spec file_id "") as [E | _]; [contradiction | reflexivity].
Qed.


Lemma route_cvt (V : env) (uid : Z) (t : string) :
  on_callback V uid ("cvt:" ++ t) = handle_conversion V uid ("cvt:" ++ t).
Proof.
  unfold on_callback.
  change ("cvt:" ++ t) with (String "c" (String "v" (String "t" (String ":" t)))).
  cbn [String.eqb Ascii.eqb Bool.eqb]. simpl String.prefix.
  destruct t; reflexivity.
Qed.

(** X8: submitting and choosing compose.  After a supported file is
    accepted, pressing any button the keyboard offered (its token is routed
    to [handle_conversion] and acknowledged) starts the conversion attempt
    for exactly that file: the job has the stored handle and name, the
    extension of the file as source format and the pressed target. *)
Theorem X8_offered_target_starts_attempt_on_stored_file
    (V : env) (uid : Z) (file_id file_name : string) (file_size : Z)
    (t : string) (w : world) :
  file_size <= MAX_FILE_SIZE V ->
  In (Spec.extension_of file_name) Inline.get_supported_extensions ->
  file_id <> "" ->
  In t (Spec.legalTargets (Spec.extension_of file_name)) ->
  tg V (CallbackAnswer uid "⏳ Начинаю конвертацию..." false) = None ->
  on_callback V uid ("cvt:" ++ t)
              (fst (process_file V uid file_id file_name file_size w))
  = (do call V (EditText uid Loading)
     then conversion_attempt V uid
            (make_job V uid file_id file_name (Spec.extension_of file_name) t))
      {| storage := storage (fst (process_file V uid file_id file_name file_size w));
         machine := machine w;
         sent := (sent (fst (process_file V uid file_id file_name file_size w))
                  ++ [CallbackAnswer uid "⏳ Начинаю конвертацию..." false])%list |}.
Proof.
  intros Hle Hin Hid Ht Hack.
  destruct (supported_offer _ Hin) as (_ & _ & info & kb & a & l & _ & _ & _ & _ & _ & Hcolon).
  rewrite List.Forall_forall in Hcolon.
  rewrite route_cvt.
  rewrite (handle_conversion_token V uid t _ (Hcolon t Ht) Hack).
  rewrite (accepted_pending V uid file_id file_name file_size w Hle Hin Hid).
  destruct (classify_supported V uid file_id file_name file_size w Hin)
    as (info' & kb' & _ & _ & _ & Heq).
  rewrite process_file_small by exact Hle. rewrite Heq. reflexivity.
Qed.

Lemma X8_offered_target_witness :
  on_callback Sample.env_ok 7 ("cvt:" ++ "webp")
              (fst (process_file Sample.env_ok 7 "BQACAgIAAxkBAAIC" "cat.png" 2097152
                                 Sample.world_empty))
  = (do call Sample.env_ok (EditText 7 Loading)
     then conversion_attempt Sample.env_ok 7
            (make_job Sample.env_ok 7 "BQACAgIAAxkBAAIC" "cat.png"
                      (Spec.extension_of "cat.png") "webp"))
      {| storage := storage (fst (process_file Sample.env_ok 7 "BQACAgIAAxkBAAIC"
                                               "cat.png" 2097152 Sample.world_empty));
         machine := machine Sample.world_empty;
         sent := (sent (fst (process_file Sample.env_ok 7 "BQACAgIAAxkBAAIC"
                                          "cat.png" 2097152 Sample.world_empty))
                  ++ [CallbackAnswer 7 "⏳ Начинаю конвертацию..." false])%list |}.
Proof.
  apply (X8_offered_target_starts_attempt_on_stored_file
           Sample.env_ok 7 "BQACAgIAAxkBAAIC" "cat.png" 2097152 "webp"
           Sample.world_empty).
  - vm_compute. discriminate.
  - vm_compute. intuition.
  - discriminate.
  - vm_compute. intuition.
  - reflexivity.
Defined.





End SubmitThenChoose.

(** ** Further properties of the callback handlers *)

(** Case analysis on the outcomes of the environment, innermost first. *)
Ltac outcome :=
  match goal with
  | |- context [match ?x with _ => _ end] =>
      lazymatch x with
      | context [match _ with _ => _ end] => fail
      | _ => destruct x eqn:?
      end
  end.

Ltac run_attempt :=
  unfold Bot.conversion_attempt, Bot.finally, Bot.try_except, Bot.attempt_body,
    Bot.attempt_handler, Bot.attempt_final, Bot.bind, Bot.fetch, Bot.on_files,
    Bot.on_host, Bot.call, Bot.raise, Bot.clear, Bot.set_session,
    Converter.save_file_from_bytes;
  repeat first [ progress cbn -[Converter.cleanup_files Converter.convert_file
                                Converter.exists_ List.skipn]
               | outcome ].

Section AttemptShape.
Import Converter Bot.


(** The attempt writes the idle session of the user into the storage and
    nothing else. *)
Lemma conversion_attempt_storage (V : env) (uid : Z) (j : job) (w : world) :
  storage (fst (conversion_attempt V uid j w)) = <[uid := Idle]> (storage w).
Proof. run_attempt; reflexivity. Qed.

End AttemptShape.

Section AttemptTheorems.
Import Converter Bot.

(** X10: a document is delivered at most once per attempt, only after the
    download and [convert_file] both succeeded, and what is delivered is the
    content found at the output path when the converter returned: the bot
    never sends a file that is not there. *)
Theorem X10_only_an_existing_output_is_delivered
    (V : env) (uid : Z) (j : job) (w : world) :
  Spec.documents (Spec.calls_of (conversion_attempt V uid j) w) = []
  \/ exists bytes h p content,
       download V (file_id j) = Ok bytes
       /\ convert_file (eng V) (input_path j) (output_path j)
            (source_extension j) (target_format j)
            {| files := <[input_path j := bytes]> (files (machine w));
               engine_log := engine_log (machine w) |}
          = (h, Ok p)
       /\ files h !! output_path j = Some content
       /\ Spec.documents (Spec.calls_of (conversion_attempt V uid j) w)
          = [Some content].
Proof.
  unfold Spec.calls_of. run_attempt;
    rewrite <- ?app_assoc, skipn_new; cbn;
    try (left; reflexivity).
  all: right;
    match goal with
    | H : negb (exists_ _ _) = false |- _ =>
        unfold exists_ in H;
        destruct (files h !! output_path j) as [content |] eqn:Hout;
        [| discriminate H]
    end;
    eexists _, _, _, content; repeat split; eassumption.
Qed.

(** X11: with a working Telegram connection, and a job whose source
    extension, target and input path are written in ASCII, the attempt
    follows one script.  After the download it announces the conversion and
    runs [convert_file] on the saved input; it delivers the output when the
    converter succeeded and the output path exists, and reports a conversion
    failure when the converter succeeded without leaving the output file.
    For an exception, of the download or of the converter, it shows the
    notice of the [except] clause that catches it: the conversion failure
    with its message for a [ConversionError], the unexpected fault for every
    other exception, among them every failure of the download and the
    [UnicodeDecodeError] that leaves the video converter. *)
Theorem X11_attempt_script
    (V : env) (uid : Z) (j : job) (w : world) :
  (forall c, tg V c = None) ->
  is_ascii (source_extension j) = true ->
  is_ascii (target_format j) = true ->
  is_ascii (input_path j) = true ->
  (forall m, Spec.error_notice (ConversionError m) = ConversionFailed m)
  /\ (forall e, (forall m, e <> ConversionError m) ->
                Spec.error_notice e = Unexpected)
  /\
  Spec.calls_of (conversion_attempt V uid j) w
  = Download (file_id j)
    :: match download V (file_id j) with
       | Raise e => [EditText uid (Spec.error_notice e)]
       | Ok bytes =>
           EditText uid (Converting (status_text_for (source_extension j)))
           :: match convert_file (eng V) (input_path j) (output_path j)
                      (source_extension j) (target_format j)
                      {| files := <[input_path j := bytes]> (files (machine w));
                         engine_log := engine_log (machine w) |} with
              | (h, Raise e) => [EditText uid (Spec.error_notice e)]
              | (h, Ok _) =>
                  match files h !! output_path j with
                  | None =>
                      [EditText uid (ConversionFailed "Выходной файл не был создан")]
                  | Some content =>
                      [EditText uid Uploading;
                       AnswerDocument uid (Some content) (output_filename j)
                                      (Done (file_name j) (output_filename j));
                       EditText uid (Done (file_name j) (output_filename j))]
                  end
              end
       end.
Proof.
  intros Htg _ _ _.
  split; [reflexivity |].
  split; [intros [m | m | x | m | m] He; try reflexivity; now destruct (He m) |].
  unfold Spec.calls_of.
  unfold conversion_attempt, finally, try_except, attempt_body, attempt_handler,
    attempt_final, bind, fetch, on_files, on_host, call, raise, clear,
    set_session, save_file_from_bytes, exists_.
  repeat first [ rewrite Htg
               | progress cbn -[cleanup_files convert_file List.skipn]
               | outcome ];
    rewrite <- ?app_assoc, skipn_new; try reflexivity.
  match goal with H : files _ !! _ = Some _ |- _ => rewrite H end. reflexivity.
Qed.

Lemma X11_attempt_script_witness :
  Spec.calls_of
    (conversion_attempt Sample.env_tool_failure 7
       (make_job Sample.env_tool_failure 7 "BAACAgIAAxkBAAIC" "clip.mp4" "mp4" "avi"))
    Sample.world_mp4
  = [Download "BAACAgIAAxkBAAIC";
     EditText 7 (Converting "🎬 Конвертирую видео... Это может занять некоторое время.");
     EditText 7 (ConversionFailed "Не удалось конвертировать видео: ошибка ffmpeg")]
  /\ Spec.calls_of
       (conversion_attempt Sample.env_garbled 7
          (make_job Sample.env_garbled 7 "BAACAgIAAxkBAAIC" "clip.mp4" "mp4" "avi"))
       Sample.world_mp4
     = [Download "BAACAgIAAxkBAAIC";
        EditText 7 (Converting "🎬 Конвертирую видео... Это может занять некоторое время.");
        EditText 7 Unexpected].
Proof.
  split.
  - exact (proj2 (proj2 (X11_attempt_script
             Sample.env_tool_failure 7
             (make_job Sample.env_tool_failure 7 "BAACAgIAAxkBAAIC" "clip.mp4"
                       "mp4" "avi")
             Sample.world_mp4 (fun _ => eq_refl) eq_refl eq_refl eq_refl))).
  - exact (proj2 (proj2 (X11_attempt_script
             Sample.env_garbled 7
             (make_job Sample.env_garbled 7 "BAACAgIAAxkBAAIC" "clip.mp4"
                       "mp4" "avi")
             Sample.world_mp4 (fun _ => eq_refl) eq_refl eq_refl eq_refl))).
Defined.

End AttemptTheorems.

Section CallbackTheorems.
Import Converter Bot.

(** X12: cancelling always clears.  [handle_cancel] clears the session
    before it talks to Telegram, so the session of the user is idle
    afterwards even when the edit or the answer raises; the sessions of the
    other users and the host are left as they were. *)
Theorem X12_cancel_always_clears (V : env) (uid : Z) (w : world) :
  storage (fst (handle_cancel V uid w)) = <[uid := Idle]> (storage w)
  /\ get_session uid (fst (handle_cancel V uid w)) = Idle
  /\ Spec.pending uid (fst (handle_cancel V uid w)) = None
  /\ machine (fst (handle_cancel V uid w)) = machine w
  /\ Spec.reported (handle_cancel V uid) w = [].
Proof.
  assert (Hs : storage (fst (handle_cancel V uid w)) = <[uid := Idle]> (storage w)).
  { unfold handle_cancel, bind, clear, set_session, call. cbn.
    destruct (tg V (EditText uid Cancelled)); reflexivity. }
  assert (Hi : get_session uid (fst (handle_cancel V uid w)) = Idle).
  { unfold get_session. rewrite Hs. now rewrite lookup_insert_eq. }
  repeat split; try assumption.
  - unfold Spec.pending. rewrite Hi. reflexivity.
  - unfold handle_cancel, bind, clear, set_session, call. cbn.
    destruct (tg V (EditText uid Cancelled)); reflexivity.
  - unfold Spec.reported, Spec.calls_of, handle_cancel, bind, clear,
      set_session, call. cbn -[List.skipn].
    destruct (tg V (EditText uid Cancelled)); cbn -[List.skipn];
      rewrite <- ?app_assoc, skipn_new; reflexivity.
Qed.

Lemma split_go_nonempty (sep : ascii) (cur s : string) :
  (1 <= length (split_go sep cur s))%nat.
Proof.
  revert cur. induction s as [| c s IH]; intros cur; cbn [split_go].
  - cbn. lia.
  - destruct (Ascii.eqb c sep); [cbn [length]; lia | apply IH].
Qed.

Lemma split_go_length (sep : ascii) (cur s : string) :
  contains sep s = true -> (2 <= length (split_go sep cur s))%nat.
Proof.
  revert cur. induction s as [| c s IH]; intros cur H; [discriminate |].
  cbn [split_go]. cbn in H. rewrite Ascii.eqb_sym in H.
  destruct (Ascii.eqb c sep).
  - cbn [length]. pose proof (split_go_nonempty sep "" s). lia.
  - apply IH. exact H.
Qed.

(** A token with a colon in its target does not split in two. *)
Lemma split_token_malformed (target : string) :
  contains ":" target = true ->
  Nat.eqb (length (split ":" ("cvt:" ++ target))) 2 = false.
Proof.
  intros H. unfold split.
  change ("cvt:" ++ target) with ("cvt" ++ String ":" target).
  rewrite split_go_sep by reflexivity. cbn [length].
  pose proof (split_go_length ":" "" target H) as Hlen.
  apply Nat.eqb_neq. lia.
Qed.

(** X13: a [cvt:] token whose payload contains a colon is refused as
    invalid data: once the callback is acknowledged the handler reports a
    stale selection, runs no engine and touches no file; the session is
    cleared when the edit of the message succeeded. *)
Theorem X13_malformed_token_is_refused
    (V : env) (uid : Z) (target : string) (w : world) :
  contains ":" target = true ->
  tg V (CallbackAnswer uid "⏳ Начинаю конвертацию..." false) = None ->
  Spec.reported (handle_conversion V uid ("cvt:" ++ target)) w
  = [Spec.StaleSelection]
  /\ machine (fst (handle_conversion V uid ("cvt:" ++ target) w)) = machine w
  /\ (tg V (EditText uid InvalidData) = None ->
      get_session uid (fst (handle_conversion V uid ("cvt:" ++ target) w)) = Idle).
Proof.
  intros Hbad Hack. unfold Spec.reported, Spec.calls_of, handle_conversion.
  rewrite (split_token_malformed target Hbad). cbn [negb].
  unfold bind, call, clear, set_session. rewrite Hack. cbn -[List.skipn].
  destruct (tg V (EditText uid InvalidData)) eqn:Hedit; cbn -[List.skipn];
    rewrite <- ?app_assoc, skipn_new; repeat split; try discriminate.
  intros _. unfold get_session. cbn. now rewrite lookup_insert_eq.
Qed.

Lemma X13_malformed_token_witness :
  Spec.reported (handle_conversion Sample.env_ok 7 ("cvt:" ++ "jpg:x"))
                Sample.world_png
  = [Spec.StaleSelection]
  /\ get_session 7 (fst (handle_conversion Sample.env_ok 7 ("cvt:" ++ "jpg:x")
                                           Sample.world_png)) = Idle.
Proof.
  destruct (X13_malformed_token_is_refused
              Sample.env_ok 7 "jpg:x" Sample.world_png eq_refl eq_refl)
    as (Hr & _ & Hs).
  split; [exact Hr | exact (Hs eq_refl)].
Defined.

(** Without a pending request a well-formed token is answered with the
    stale-selection notice and nothing is run. *)
Lemma handle_conversion_no_pending (V : env) (uid : Z) (target : string)
    (w : world) :
  contains ":" target = false ->
  tg V (CallbackAnswer uid "⏳ Начинаю конвертацию..." false) = None ->
  Spec.pending uid w = None ->
  Spec.reported (handle_conversion V uid ("cvt:" ++ target)) w
  = [Spec.StaleSelection]
  /\ machine (fst (handle_conversion V uid ("cvt:" ++ target) w)) = machine w.
Proof.
  intros Htok Hack Hp. unfold Spec.reported, Spec.calls_of.
  rewrite handle_conversion_token by assumption. rewrite Hp.
  unfold bind, call, clear, set_session. cbn -[List.skipn].
  destruct (tg V (EditText uid FileInfoLost)); cbn -[List.skipn];
    (split; [| reflexivity]);
    rewrite <- app_assoc; rewrite skipn_new; reflexivity.
Qed.

(** After the attempt the request is gone. *)
Lemma handle_conversion_consumes (V : env) (uid : Z) (target : string)
    (w : world) (f n e : string) :
  contains ":" target = false ->
  tg V (CallbackAnswer uid "⏳ Начинаю конвертацию..." false) = None ->
  tg V (EditText uid Loading) = None ->
  Spec.pending uid w = Some (f, n, e) ->
  Spec.pending uid (fst (handle_conversion V uid ("cvt:" ++ target) w)) = None.
Proof.
  intros Htok Hack Hload Hp.
  rewrite handle_conversion_token by assumption. rewrite Hp.
  rewrite bind_call_ok by exact Hload.
  match goal with
  | |- context [conversion_attempt V uid ?j ?w1] =>
      destruct (conversion_attempt_clears V uid j w1) as (Hs & _)
  end.
  unfold Spec.pending. rewrite Hs. reflexivity.
Qed.

(** X14: a selection can be used once.  When a stored request has gone
    through a conversion attempt, however that attempt ended, pressing a
    button of the same keyboard again is answered with the stale-selection
    notice and runs no engine. *)
Theorem X14_second_selection_is_stale
    (V : env) (uid : Z) (t1 t2 : string) (w : world) (f n e : string) :
  contains ":" t1 = false ->
  contains ":" t2 = false ->
  tg V (CallbackAnswer uid "⏳ Начинаю конвертацию..." false) = None ->
  tg V (EditText uid Loading) = None ->
  Spec.pending uid w = Some (f, n, e) ->
  Spec.reported (handle_conversion V uid ("cvt:" ++ t2))
                (fst (handle_conversion V uid ("cvt:" ++ t1) w))
  = [Spec.StaleSelection]
  /\ machine (fst (handle_conversion V uid ("cvt:" ++ t2)
                     (fst (handle_conversion V uid ("cvt:" ++ t1) w))))
     = machine (fst (handle_conversion V uid ("cvt:" ++ t1) w)).
Proof.
  intros H1 H2 Hack Hload Hp.
  apply handle_conversion_no_pending; try assumption.
  now apply (handle_conversion_consumes V uid t1 w f n e).
Qed.

Lemma X14_second_selection_witness :
  Spec.reported (handle_conversion Sample.env_ok 7 ("cvt:" ++ "webp"))
                (fst (handle_conversion Sample.env_ok 7 ("cvt:" ++ "jpg")
                                        Sample.world_png))
  = [Spec.StaleSelection].
Proof.
  apply (X14_second_selection_is_stale
           Sample.env_ok 7 "jpg" "webp" Sample.world_png
           "BQACAgIAAxkBAAIB" "cat.png" "png" eq_refl eq_refl eq_refl eq_refl eq_refl).
Defined.

End CallbackTheorems.

Section IsolationTheorems.
Import Converter Bot.

(** The storage after [handle_conversion] is the storage before, possibly
    with the idle session written for the user. *)
Lemma handle_conversion_storage (V : env) (uid : Z) (callback_data : string)
    (w : world) :
  storage (fst (handle_conversion V uid callback_data w)) = storage w
  \/ storage (fst (handle_conversion V uid callback_data w))
     = <[uid := Idle]> (storage w).
Proof.
  unfold handle_conversion, bind, call, get_data, clear, set_session.
  repeat first [ progress cbn -[conversion_attempt split String.eqb]
               | outcome ];
    first [ left; reflexivity
          | right; reflexivity
          | right; now rewrite conversion_attempt_storage ].
Qed.

(** X15: callbacks are isolated per user.  Whatever the callback data and
    whatever the environment does, handling a callback of one user leaves the
    session of every other user as it was. *)
Theorem X15_callbacks_touch_only_the_sender
    (V : env) (uid other : Z) (callback_data : string) (w : world) :
  other <> uid ->
  storage (fst (on_callback V uid callback_data w)) !! other
  = storage w !! other.
Proof.
  intros Hne. unfold on_callback.
  destruct (String.eqb callback_data "cancel").
  - unfold handle_cancel, bind, clear, set_session, call. cbn.
    destruct (tg V (EditText uid Cancelled)); cbn;
      now rewrite lookup_insert_ne by congruence.
  - destruct (String.prefix "cvt:" callback_data).
    + destruct (handle_conversion_storage V uid callback_data w) as [-> | ->];
        [reflexivity | now rewrite lookup_insert_ne by congruence].
    + reflexivity.
Qed.

Lemma X15_callbacks_witness :
  storage (fst (on_callback Sample.env_tool_failure 8 "cvt:avi" Sample.world_mp4))
    !! 7
  = storage Sample.world_mp4 !! 7.
Proof.
  apply (X15_callbacks_touch_only_the_sender
           Sample.env_tool_failure 8 7 "cvt:avi" Sample.world_mp4).
  discriminate.
Defined.

(** X16: no job reads and writes the same file.  An input path and an
    output path never coincide, whatever the users, file handles and
    extensions: converting a file to its own format does not overwrite the
    downloaded input. *)
Theorem X16_input_and_output_paths_differ
    (V : env) (uid1 uid2 : Z) (f1 f2 source target : string) :
  input_path_for V uid1 f1 source <> output_path_for V uid2 f2 target.
Proof.
  unfold input_path_for, output_path_for. intros H.
  destruct (path_join_relative (temp_dir V)) as [p Hp].
  rewrite !Hp in H by reflexivity.
  apply string_app_cancel_l in H.
  cbv [String.append] in H. discriminate H.
Qed.

End IsolationTheorems.

(** ** Further properties of the converters *)

Section DispatchFacts.
Import Converter.

Lemma run_call_log (E : engines) (c : engine_call) (o : string) (d : host) :
  engine_log (fst (run_call E c o d)) = (engine_log d ++ [c])%list.
Proof. unfold run_call. destruct (run E c (files d)). reflexivity. Qed.

Lemma run_log_step {A : Type} (E : engines) (c : engine_call) (o : string)
    (d : host) (k : res string -> A) :
  engine_log (fst (let '(d', r) := run_call E c o d in (d', k r)))
  = (engine_log d ++ [c])%list.
Proof.
  pose proof (run_call_log E c o d) as H.
  destruct (run_call E c o d) as [d' r]. exact H.
Qed.

Lemma run_call_result (E : engines) (c : engine_call) (o : string) (d : host) :
  snd (run_call E c o d) = Ok o \/ exists e, snd (run_call E c o d) = Raise e.
Proof.
  unfold run_call. destruct (run E c (files d)) as [f' [e |]]; cbn; eauto.
Qed.

Lemma wrap_error_result (prefix o : string) (r : res string) :
  r = Ok o \/ (exists e, r = Raise e) ->
  wrap_error prefix r = Ok o
  \/ exists m, wrap_error prefix r = Raise (ConversionError m).
Proof. intros [-> | [e ->]]; cbn; eauto. Qed.

Lemma convert_image_log (E : engines) (i o t : string) (d : host)
    (bytes : list byte) (opened : string * (nat * nat)) :
  files d !! i = Some bytes -> pil_open E bytes = Some opened ->
  engine_log (fst (convert_image E i o t d))
  = (engine_log d ++ [image_call i o t opened])%list.
Proof.
  intros Hf Ho. unfold convert_image, run_in_executor, read_bytes.
  rewrite Hf, Ho.
  destruct (run_call E (image_call i o t opened) o d) as [d' r] eqn:Hr.
  cbn [fst]. change d' with (fst (d', r)). rewrite <- Hr. apply run_call_log.
Qed.

Lemma convert_audio_log (E : engines) (i o t : string) (d : host) :
  engine_log (fst (convert_audio E i o t d))
  = (engine_log d ++ [audio_call i o t])%list.
Proof.
  unfold convert_audio, run_in_executor.
  destruct (run_call E (audio_call i o t) o d) as [d' r] eqn:Hr.
  cbn [fst]. change d' with (fst (d', r)). rewrite <- Hr. apply run_call_log.
Qed.

Lemma convert_video_log (E : engines) (i o t : string) (d : host) :
  engine_log (fst (convert_video E i o t d))
  = (engine_log d ++ [video_call i o t])%list.
Proof.
  unfold convert_video, run_in_executor.
  destruct (run_call E (video_call i o t) o d) as [d' r] eqn:Hr.
  cbn [fst]. change d' with (fst (d', r)). rewrite <- Hr. apply run_call_log.
Qed.

Lemma convert_document_log (E : engines) (i o t : string) (d : host) :
  engine_log (fst (convert_document E i o t d))
  = (engine_log d ++ [document_call i o t])%list.
Proof.
  unfold convert_document, run_in_executor.
  destruct (run_call E (document_call i o t) o d) as [d' r] eqn:Hr.
  cbn [fst]. change d' with (fst (d', r)). rewrite <- Hr. apply run_call_log.
Qed.

Lemma convert_spreadsheet_log (E : engines) (i o t : string) (d : host)
    (df : frame) :
  read_table E i d = Ok df ->
  (t = "csv" ->
   engine_log (fst (convert_spreadsheet E i o t d))
   = (engine_log d
      ++ [ToCsv df o [("index", PBool false); ("encoding", PStr "utf-8")]])%list)
  /\ (t = "xlsx" ->
      engine_log (fst (convert_spreadsheet E i o t d))
      = (engine_log d
         ++ [ToExcel df o [("index", PBool false); ("engine", PStr "openpyxl")]])%list).
Proof.
  intros Hdf. unfold convert_spreadsheet, run_in_executor. rewrite Hdf.
  split; intros ->; cbn [String.eqb Ascii.eqb Bool.eqb];
    match goal with
    | |- context [run_call E ?c o d] =>
        let Hr := fresh in
        destruct (run_call E c o d) as [d' r] eqn:Hr;
        cbn [fst]; change d' with (fst (d', r)); rewrite <- Hr;
        apply run_call_log
    end.
Qed.

(** The converter [convert_file] hands the job to, by the type of the
    source format. *)
Lemma convert_file_routes
    (E : engines) (i o s t ty : string) (d : host) :
  Inline.get_file_type s = Some ty ->
  (ty = "image" /\ convert_file E i o s t d = convert_image E i o t d)
  \/ (ty = "audio" /\ convert_file E i o s t d = convert_audio E i o t d)
  \/ (ty = "video" /\ convert_file E i o s t d = convert_video E i o t d)
  \/ (In ty ["document"; "pdf"; "text"]
      /\ convert_file E i o s t d = convert_document E i o t d)
  \/ (ty = "spreadsheet"
      /\ convert_file E i o s t d = convert_spreadsheet E i o t d).
Proof.
  intros Hty. unfold convert_file. rewrite Hty.
  unfold Inline.get_file_type in Hty. apply dict_get_In in Hty.
  unfold Inline.FILE_TYPE_MAP in Hty.
  repeat (destruct Hty as [Hty | Hty];
          [injection Hty as _ <-;
           cbn [is_type existsb String.eqb Ascii.eqb Bool.eqb orb];
           cbn [In]; tauto |]).
  destruct Hty.
Qed.

(** What the converters can end with. *)
Lemma convert_image_result (E : engines) (i o t : string) (d : host) :
  snd (convert_image E i o t d) = Ok o
  \/ exists m, snd (convert_image E i o t d) = Raise (ConversionError m).
Proof.
  unfold convert_image, run_in_executor.
  destruct (read_bytes i d) as [bytes | e]; [| cbn; eauto].
  destruct (pil_open E bytes) as [opened |]; [| cbn; eauto].
  pose proof (run_call_result E (image_call i o t opened) o d) as H.
  destruct (run_call E (image_call i o t opened) o d) as [d' r].
  cbn [snd] in *. now apply wrap_error_result.
Qed.

Lemma convert_audio_result (E : engines) (i o t : string) (d : host) :
  snd (convert_audio E i o t d) = Ok o
  \/ exists m, snd (convert_audio E i o t d) = Raise (ConversionError m).
Proof.
  unfold convert_audio, run_in_executor.
  pose proof (run_call_result E (audio_call i o t) o d) as H.
  destruct (run_call E (audio_call i o t) o d) as [d' r].
  cbn [snd] in *. now apply wrap_error_result.
Qed.

Lemma convert_document_result (E : engines) (i o t : string) (d : host) :
  snd (convert_document E i o t d) = Ok o
  \/ exists m, snd (convert_document E i o t d) = Raise (ConversionError m).
Proof.
  unfold convert_document, run_in_executor.
  pose proof (run_call_result E (document_call i o t) o d) as H.
  destruct (run_call E (document_call i o t) o d) as [d' r].
  cbn [snd] in *. now apply wrap_error_result.
Qed.

Lemma convert_spreadsheet_result (E : engines) (i o t : string) (d : host) :
  snd (convert_spreadsheet E i o t d) = Ok o
  \/ exists m, snd (convert_spreadsheet E i o t d) = Raise (ConversionError m).
Proof.
  unfold convert_spreadsheet, run_in_executor.
  destruct (read_table E i d) as [df | e]; [| cbn; eauto].
  destruct (String.eqb t "csv").
  { match goal with
    | |- context [run_call E ?c o d] =>
        pose proof (run_call_result E c o d) as H;
        destruct (run_call E c o d) as [d' r]
    end.
    cbn [snd] in *. now apply wrap_error_result. }
  destruct (String.eqb t "xlsx"); [| cbn; eauto].
  match goal with
  | |- context [run_call E ?c o d] =>
      pose proof (run_call_result E c o d) as H;
      destruct (run_call E c o d) as [d' r]
  end.
  cbn [snd] in *. now apply wrap_error_result.
Qed.

(** The video converter ends with the output path or a conversion error,
    unless the transcoder failed with a non-empty [stderr] that is not valid
    UTF-8: then, and only then, a [UnicodeDecodeError] leaves it. *)
Lemma convert_video_result (E : engines) (i o t : string) (d : host) :
  snd (convert_video E i o t d) = Ok o
  \/ (exists m, snd (convert_video E i o t d) = Raise (ConversionError m))
  \/ (exists m stderr,
        snd (convert_video E i o t d) = Raise (UnicodeDecodeError m)
        /\ snd (run E (video_call i o t) (files d))
           = Some (FfmpegError (Some stderr))
        /\ stderr <> []
        /\ utf8_decode false (map byte_val stderr) = None).
Proof.
  unfold convert_video, run_in_executor, run_call.
  destruct (run E (video_call i o t) (files d)) as [f' [e |]]; cbn [snd];
    [| now left].
  right. destruct e as [m | m | stderr | m | m]; try solve [left; eauto].
  unfold ffmpeg_error. destruct stderr as [[| b bs] |]; try solve [left; eauto].
  destruct (utf8_decode false (map byte_val (b :: bs))) eqn:Hd;
    [solve [left; eauto] |].
  right. eexists _, (b :: bs). repeat split; [discriminate | exact Hd].
Qed.

(** X17: the dispatcher routes by the type of the source format; the
    source format, the target and the input path are written in ASCII.  For
    a source format the registry does not know it raises the unsupported-type
    error without touching the host.  For an audio, video or document
    source it hands exactly one call to pydub, ffmpeg or pandoc; for an
    image it hands the Pillow call once the input is readable and
    identified; for a spreadsheet it writes the frame it read with the csv
    or the xlsx writer.  It ends with the output path or a conversion
    error, except that the video converter lets a [UnicodeDecodeError] out
    when the transcoder failed with a [stderr] that is not valid UTF-8. *)
Theorem X17_dispatch_routes_by_source_type
    (E : engines) (i o s t : string) (d : host) :
  is_ascii s = true -> is_ascii t = true -> is_ascii i = true ->
  match Inline.get_file_type s with
  | None =>
      convert_file E i o s t d
      = (d, Raise (ConversionError ("Неподдерживаемый тип файла: " ++ s)))
  | Some ty =>
      (ty = "audio" ->
       engine_log (fst (convert_file E i o s t d))
       = (engine_log d ++ [audio_call i o t])%list)
      /\ (ty = "video" ->
          engine_log (fst (convert_file E i o s t d))
          = (engine_log d ++ [video_call i o t])%list)
      /\ (In ty ["document"; "pdf"; "text"] ->
          engine_log (fst (convert_file E i o s t d))
          = (engine_log d ++ [document_call i o t])%list)
      /\ (ty = "image" ->
          forall bytes opened,
            files d !! i = Some bytes -> pil_open E bytes = Some opened ->
            engine_log (fst (convert_file E i o s t d))
            = (engine_log d ++ [image_call i o t opened])%list)
      /\ (ty = "spreadsheet" ->
          forall df, read_table E i d = Ok df ->
            (t = "csv" ->
             engine_log (fst (convert_file E i o s t d))
             = (engine_log d
                ++ [ToCsv df o [("index", PBool false);
                                ("encoding", PStr "utf-8")]])%list)
            /\ (t = "xlsx" ->
                engine_log (fst (convert_file E i o s t d))
                = (engine_log d
                   ++ [ToExcel df o [("index", PBool false);
                                     ("engine", PStr "openpyxl")]])%list))
      /\ (snd (convert_file E i o s t d) = Ok o
          \/ (exists m, snd (convert_file E i o s t d)
                        = Raise (ConversionError m))
          \/ (ty = "video"
              /\ exists m stderr,
                   snd (convert_file E i o s t d) = Raise (UnicodeDecodeError m)
                   /\ snd (run E (video_call i o t) (files d))
                      = Some (FfmpegError (Some stderr))
                   /\ utf8_decode false (map byte_val stderr) = None))
  end.
Proof.
  intros _ _ _.
  destruct (Inline.get_file_type s) as [ty |] eqn:Hty.
  2: { unfold convert_file. now rewrite Hty. }
  destruct (convert_file_routes E i o s t ty d Hty)
    as [[-> ->] | [[-> ->] | [[-> ->] | [[Hdoc ->] | [-> ->]]]]].
  - repeat split; try discriminate; try (cbn; intuition discriminate).
    + intros _ bytes opened Hf Ho. now apply (convert_image_log E i o t d bytes).
    + destruct (convert_image_result E i o t d) as [H | H]; auto.
  - repeat split; try discriminate; try (cbn; intuition discriminate).
    + intros _. apply convert_audio_log.
    + destruct (convert_audio_result E i o t d) as [H | H]; auto.
  - repeat split; try discriminate; try (cbn; intuition discriminate).
    + intros _. apply convert_video_log.
    + destruct (convert_video_result E i o t d)
        as [H | [H | (m & stderr & H1 & H2 & _ & H3)]]; auto.
      right. right. split; [reflexivity |]. eauto.
  - assert (ty <> "audio" /\ ty <> "video" /\ ty <> "image" /\ ty <> "spreadsheet")
      as (Ha & Hv & Hi & Hs)
      by (cbn in Hdoc; repeat split; intros ->; intuition discriminate).
    repeat split; try contradiction.
    + intros _. apply convert_document_log.
    + destruct (convert_document_result E i o t d) as [H | H]; auto.
  - repeat split; try discriminate; try (cbn; intuition discriminate).
    + intros ->. now apply (convert_spreadsheet_log E i o "csv" d df).
    + intros ->. now apply (convert_spreadsheet_log E i o "xlsx" d df).
    + destruct (convert_spreadsheet_result E i o t d) as [H | H]; auto.
Qed.

Lemma X17_dispatch_witness :
  engine_log (fst (convert_file Sample.engines_garbled "/tmp/in.mp4" "/tmp/out.avi"
                                "MP4" "avi" Sample.empty_host))
  = [video_call "/tmp/in.mp4" "/tmp/out.avi" "avi"]
  /\ engine_log (fst (convert_file Sample.engines_ok "/tmp/input_7_BQACAgIA.csv"
                                   "/tmp/out.xlsx" "csv" "xlsx"
                                   (Sample.host_with "/tmp/input_7_BQACAgIA.csv"
                                                     Sample.cp1251_csv)))
     = [ToExcel [[[1048; 1084; 1103; 10; 1048; 1074; 1072; 1085; 10]]]
                "/tmp/out.xlsx"
                [("index", PBool false); ("engine", PStr "openpyxl")]].
Proof.
  split.
  - pose proof (X17_dispatch_routes_by_source_type
                  Sample.engines_garbled "/tmp/in.mp4" "/tmp/out.avi" "MP4" "avi"
                  Sample.empty_host eq_refl eq_refl eq_refl) as H.
    change (Inline.get_file_type "MP4") with (Some "video") in H.
    destruct H as (_ & Hv & _). exact (Hv eq_refl).
  - pose proof (X17_dispatch_routes_by_source_type
                  Sample.engines_ok "/tmp/input_7_BQACAgIA.csv" "/tmp/out.xlsx"
                  "csv" "xlsx"
                  (Sample.host_with "/tmp/input_7_BQACAgIA.csv" Sample.cp1251_csv)
                  eq_refl eq_refl eq_refl)
      as H.
    change (Inline.get_file_type "csv") with (Some "spreadsheet") in H.
    destruct H as (_ & _ & _ & _ & Hs & _).
    destruct (Hs eq_refl
                 [[[1048; 1084; 1103; 10; 1048; 1074; 1072; 1085; 10]]] eq_refl)
      as [_ Hx].
    exact (Hx eq_refl).
Defined.

(** Whatever the source format, [convert_file] adds at most one engine call,
    and that call writes to the output path. *)
Lemma convert_file_log
    (E : engines) (input_path output_path source_format target_format : string)
    (d : host) :
  engine_log (fst (convert_file E input_path output_path source_format
                                target_format d))
  = engine_log d
  \/ exists c,
       engine_log (fst (convert_file E input_path output_path source_format
                                     target_format d))
       = (engine_log d ++ [c])%list
       /\ Spec.call_output c = output_path.
Proof.
  destruct (Inline.get_file_type source_format) as [ty |] eqn:Hty.
  2: { unfold convert_file. rewrite Hty. now left. }
  destruct (convert_file_routes E input_path output_path source_format
                                target_format ty d Hty)
    as [[_ ->] | [[_ ->] | [[_ ->] | [[_ ->] | [_ ->]]]]].
  - unfold convert_image, run_in_executor.
    destruct (read_bytes input_path d) as [bytes | e]; [| now left].
    destruct (pil_open E bytes) as [opened |]; [| now left].
    right. eexists. split; [apply run_log_step | reflexivity].
  - right. eexists. split; [apply convert_audio_log | reflexivity].
  - right. eexists. split; [apply convert_video_log | reflexivity].
  - right. eexists. split; [apply convert_document_log | reflexivity].
  - unfold convert_spreadsheet, run_in_executor.
    destruct (read_table E input_path d) as [df | e]; [| now left].
    destruct (String.eqb target_format "csv").
    { right. eexists. split; [apply run_log_step | reflexivity]. }
    destruct (String.eqb target_format "xlsx"); [| now left].
    right. eexists. split; [apply run_log_step | reflexivity].
Qed.

End DispatchFacts.

Section EncoderFacts.
Import Converter.

Lemma prepare_image_size_mode (target : string) (img : image) :
  size (prepare_image target img) = size img
  /\ (mem (lower target) ["jpg"; "jpeg"; "pdf"] = true ->
      mode (prepare_image target img) = "RGB").
Proof.
  unfold prepare_image. split.
  - destruct (mem (lower target) ["jpg"; "jpeg"; "pdf"]); [| reflexivity].
    destruct (mem (mode img) ["RGBA"; "P"; "LA"]); [reflexivity |].
    destruct (negb (String.eqb (mode img) "RGB")); reflexivity.
  - intros ->.
    destruct (mem (mode img) ["RGBA"; "P"; "LA"]); [reflexivity |].
    destruct (String.eqb_spec (mode img) "RGB") as [E | _]; [exact E | reflexivity].
Qed.

(** X18: once the input is read and identified, the one call
    [convert_image] makes is a Pillow [save] to the output path, and the
    image in that call always has the size of the opened image; for the
    targets jpg, jpeg and pdf (in any letter case) its mode is RGB whatever
    the mode of the source, so these encoders never receive an alpha band or
    a palette. *)
Theorem X18_prepared_image_keeps_size_and_is_rgb
    (E : engines) (input_path output_path target : string) (d : host)
    (bytes : list byte) (m : string) (sz : nat * nat) :
  files d !! input_path = Some bytes ->
  pil_open E bytes = Some (m, sz) ->
  exists (handed : image) (fmt : string) (kwargs : dict pyval),
    engine_log (fst (convert_image E input_path output_path target d))
    = (engine_log d ++ [PilSave handed output_path fmt kwargs])%list
    /\ size handed = sz
    /\ (mem (lower target) ["jpg"; "jpeg"; "pdf"] = true ->
        mode handed = "RGB").
Proof.
  intros Hf Ho.
  exists (prepare_image target (Opened input_path m sz)).
  eexists _, _. split.
  - rewrite (convert_image_log E input_path output_path target d bytes (m, sz))
      by assumption.
    reflexivity.
  - exact (prepare_image_size_mode target (Opened input_path m sz)).
Qed.

Lemma X18_prepared_image_witness :
  exists (handed : image) (fmt : string) (kwargs : dict pyval),
    engine_log
      (fst (convert_image Sample.engines_rgba "/tmp/in.png" "/tmp/out.pdf" "Pdf"
                          (Sample.host_with "/tmp/in.png" [x89; x50; x4e; x47])))
    = [PilSave handed "/tmp/out.pdf" fmt kwargs]
    /\ size handed = (2, 2)%nat
    /\ mode handed = "RGB".
Proof.
  destruct (X18_prepared_image_keeps_size_and_is_rgb
              Sample.engines_rgba "/tmp/in.png" "/tmp/out.pdf" "Pdf"
              (Sample.host_with "/tmp/in.png" [x89; x50; x4e; x47])
              [x89; x50; x4e; x47] "RGBA" (2, 2)%nat eq_refl eq_refl)
    as (handed & fmt & kwargs & Hlog & Hsize & Hmode).
  exists handed, fmt, kwargs.
  split; [exact Hlog | split; [exact Hsize | exact (Hmode eq_refl)]].
Defined.

(** X19: the spreadsheet converter writes csv and xlsx only.  For any other
    target it ends with a conversion error and calls no engine, whether or
    not the source could be read; the same holds when the input path has an
    extension other than xlsx, xls and csv. *)
Theorem X19_spreadsheet_refuses_other_formats
    (E : engines) (input_path output_path target : string) (d : host) :
  (String.eqb target "csv" = false /\ String.eqb target "xlsx" = false)
  \/ mem (lstrip "." (lower (path_suffix input_path))) ["xlsx"; "xls"; "csv"]
     = false ->
  fst (convert_spreadsheet E input_path output_path target d) = d
  /\ exists m,
       snd (convert_spreadsheet E input_path output_path target d)
       = Raise (ConversionError m).
Proof.
  intros H. unfold convert_spreadsheet, run_in_executor.
  destruct H as [[Hc Hx] | Hext].
  - rewrite Hc, Hx. destruct (read_table E input_path d); cbn; eauto.
  - unfold read_table. cbn [mem existsb] in Hext.
    apply orb_false_elim in Hext. destruct Hext as [H1 Hext].
    apply orb_false_elim in Hext. destruct Hext as [H2 Hext].
    apply orb_false_elim in Hext. destruct Hext as [H3 _].
    cbn [mem existsb]. rewrite H1, H2, H3. cbn. eauto.
Qed.

Lemma X19_spreadsheet_witness :
  fst (convert_spreadsheet Sample.engines_ok "/tmp/input_7_BQACAgIA.csv"
         "/tmp/output_7_BQACAgIA.pdf" "pdf"
         (Sample.host_with "/tmp/input_7_BQACAgIA.csv" Sample.cp1251_csv))
  = Sample.host_with "/tmp/input_7_BQACAgIA.csv" Sample.cp1251_csv.
Proof.
  apply (X19_spreadsheet_refuses_other_formats
           Sample.engines_ok "/tmp/input_7_BQACAgIA.csv"
           "/tmp/output_7_BQACAgIA.pdf" "pdf"
           (Sample.host_with "/tmp/input_7_BQACAgIA.csv" Sample.cp1251_csv)).
  left. split; reflexivity.
Defined.

Lemma utf8_decode_ascii (bs : list Z) :
  Forall (fun b => 0 <= b < 128) bs -> utf8_decode false bs = Some bs.
Proof.
  induction 1 as [| b bs Hb _ IH]; [reflexivity |].
  cbn [utf8_decode].
  replace (b <? 128) with true by (symmetry; apply Z.ltb_lt; lia).
  now rewrite IH.
Qed.

(** X20: a CSV file of plain ASCII bytes is read at the first attempt, as
    UTF-8, and the parser receives the bytes unchanged as code points. *)
Theorem X20_ascii_csv_read_at_first_attempt
    (E : engines) (d : host) (input_path : string) (bytes : list byte) :
  files d !! input_path = Some bytes ->
  Forall (fun b => byte_val b < 128) bytes ->
  csv_loop E d input_path 0 csv_encodings
  = Spec.parsed_exit 1 "utf-8" (csv_parse E (map byte_val bytes)).
Proof.
  intros Hf Hascii. unfold csv_encodings.
  apply (loop_round_ok E d _ _ bytes); [exact Hf |].
  unfold decode. cbn [String.eqb Ascii.eqb Bool.eqb].
  rewrite utf8_decode_ascii; [reflexivity |].
  clear Hf. induction Hascii as [| b bs Hb _ IH]; cbn [map]; [constructor |].
  constructor; [| exact IH].
  split; [unfold byte_val; lia | exact Hb].
Qed.

Lemma X20_ascii_csv_witness :
  csv_loop Sample.engines_ok
           (Sample.host_with "/tmp/input_7_BQACAgIA.csv" [x61; x2c; x62; x0a])
           "/tmp/input_7_BQACAgIA.csv" 0 csv_encodings
  = Break 1 "utf-8" [[[97; 44; 98; 10]]].
Proof.
  apply (X20_ascii_csv_read_at_first_attempt
           Sample.engines_ok
           (Sample.host_with "/tmp/input_7_BQACAgIA.csv" [x61; x2c; x62; x0a])
           "/tmp/input_7_BQACAgIA.csv" [x61; x2c; x62; x0a] eq_refl).
  repeat constructor.
Defined.

Lemma cp1251_char_undefined (b : byte) :
  cp1251_char (byte_val b) = None <-> b = x98.
Proof. destruct b; vm_compute; split; congruence. Qed.

Lemma cp1251_decode_fails (bs : list byte) :
  cp1251_decode (map byte_val bs) = None <-> In x98 bs.
Proof.
  induction bs as [| b bs IH]; cbn [map cp1251_decode In]; [split; easy |].
  destruct (cp1251_char (byte_val b)) as [cp |] eqn:Hb.
  - assert (b <> x98) by (intros ->; vm_compute in Hb; discriminate).
    destruct (cp1251_decode (map byte_val bs)) eqn:Hd; cbn.
    + split; [discriminate | intros [E | Hin]; [congruence | now apply IH in Hin]].
    + split; [intros _; right; now apply IH | reflexivity].
  - apply cp1251_char_undefined in Hb. split; [now left | reflexivity].
Qed.

(** X21: the bytes of a file fail to decode as CP1251 exactly when they
    contain the byte 0x98, the one position the code page leaves undefined;
    so the encoding loop gets as far as latin-1 only for a file that
    contains this byte. *)
Theorem X21_latin1_only_after_byte_0x98
    (E : engines) (d : host) (input_path : string) (bytes : list byte) :
  files d !! input_path = Some bytes ->
  ((exists e, decode "cp1251" bytes = Raise e) <-> In x98 bytes)
  /\ (forall attempt df,
        csv_loop E d input_path 0 csv_encodings = Break attempt "latin-1" df ->
        In x98 bytes).
Proof.
  intros Hf.
  assert (Hcp : (exists e, decode "cp1251" bytes = Raise e) <-> In x98 bytes).
  { rewrite <- cp1251_decode_fails. unfold decode.
    cbn [String.eqb Ascii.eqb Bool.eqb].
    destruct (cp1251_decode (map byte_val bytes)); split;
      [intros [e He]; discriminate He | discriminate | reflexivity | eauto]. }
  split; [exact Hcp |].
  intros attempt df. unfold csv_encodings.
  destruct (decode "utf-8" bytes) as [t1 | e1] eqn:H1.
  { rewrite (loop_round_ok E d _ _ bytes t1) by assumption.
    destruct (csv_parse E t1); discriminate. }
  rewrite (loop_round_fail E d _ _ bytes e1) by assumption.
  destruct (decode "cp1251" bytes) as [t2 | e2] eqn:H2.
  { rewrite (loop_round_ok E d _ _ bytes t2) by assumption.
    destruct (csv_parse E t2); discriminate. }
  intros _. apply Hcp. eauto.
Qed.

Lemma X21_latin1_witness :
  csv_loop Sample.engines_ok
           (Sample.host_with "/tmp/input_7_BQACAgIA.csv" [x98; xff])
           "/tmp/input_7_BQACAgIA.csv" 0 csv_encodings
  = Break 3 "latin-1" [[[152; 255]]]
  /\ In x98 [x98; xff].
Proof.
  split; [reflexivity |].
  exact (proj2 (X21_latin1_only_after_byte_0x98
                  Sample.engines_ok
                  (Sample.host_with "/tmp/input_7_BQACAgIA.csv" [x98; xff])
                  "/tmp/input_7_BQACAgIA.csv" [x98; xff] eq_refl)
               3%nat [[[152; 255]]] eq_refl).
Defined.

End EncoderFacts.

Section TempFileFacts.
Import Converter Bot.

(** X22: [cleanup_files] removes the listed paths and nothing else: after
    it a listed path is absent, whether or not it existed, and every other
    path holds what it held. *)
Theorem X22_cleanup_removes_exactly_the_listed_paths
    (paths : list string) (d : fs) (p : string) :
  cleanup_files paths d !! p = if mem p paths then None else d !! p.
Proof.
  revert d. induction paths as [| q rest IH]; intros d; [reflexivity |].
  cbn [cleanup_files]. rewrite IH. cbn [mem existsb].
  fold (mem p rest). unfold exists_, os_remove.
  destruct (mem p rest); [now rewrite orb_true_r |]. rewrite orb_false_r.
  destruct (String.eqb_spec p q) as [-> | Hne].
  - destruct (d !! q) eqn:Hq; [apply lookup_delete_eq | exact Hq].
  - destruct (d !! q); [| reflexivity].
    now rewrite lookup_delete_ne by congruence.
Qed.

(** X23: what [save_file_from_bytes] writes is what [read_file_bytes]
    reads back, reading changes nothing, and once the path has been cleaned
    up reading it raises. *)
Theorem X23_saved_bytes_are_read_back
    (data : list byte) (path : string) (d : fs) :
  snd (read_file_bytes path (fst (save_file_from_bytes data path d))) = Ok data
  /\ fst (read_file_bytes path (fst (save_file_from_bytes data path d)))
     = fst (save_file_from_bytes data path d)
  /\ snd (save_file_from_bytes data path d) = Ok path
  /\ snd (read_file_bytes path
            (cleanup_files [path] (fst (save_file_from_bytes data path d))))
     = Raise (Exception "No such file or directory").
Proof.
  unfold read_file_bytes, save_file_from_bytes. cbn [fst snd].
  rewrite lookup_insert_eq. repeat split.
  rewrite (cleanup_files_absent [path] _ path) by (left; now left).
  reflexivity.
Qed.

Lemma cancel_no_pending (V : env) (uid : Z) (w : world) :
  Spec.pending uid (fst (handle_cancel V uid w)) = None
  /\ machine (fst (handle_cancel V uid w)) = machine w.
Proof.
  unfold Spec.pending, get_session, handle_cancel, bind, clear, set_session, call.
  cbn. destruct (tg V (EditText uid Cancelled)); cbn;
    rewrite lookup_insert_eq; split; reflexivity.
Qed.

(** X24: a cancelled request cannot be converted.  After [handle_cancel],
    whatever was pending, a well-formed [cvt:] token of the old keyboard is
    answered with the stale-selection notice; no engine runs and no file is
    written. *)
Theorem X24_selection_after_cancel_is_stale
    (V : env) (uid : Z) (target : string) (w : world) :
  contains ":" target = false ->
  tg V (CallbackAnswer uid "⏳ Начинаю конвертацию..." false) = None ->
  Spec.reported (handle_conversion V uid ("cvt:" ++ target))
                (fst (handle_cancel V uid w))
  = [Spec.StaleSelection]
  /\ machine (fst (handle_conversion V uid ("cvt:" ++ target)
                     (fst (handle_cancel V uid w))))
     = machine w.
Proof.
  intros Htok Hack.
  destruct (cancel_no_pending V uid w) as [Hp Hm].
  destruct (handle_conversion_no_pending V uid target _ Htok Hack Hp) as [Hr Hm'].
  split; [exact Hr | now rewrite Hm'].
Qed.

Lemma X24_selection_after_cancel_witness :
  Spec.reported (handle_conversion Sample.env_ok 7 ("cvt:" ++ "jpg"))
                (fst (handle_cancel Sample.env_ok 7 Sample.world_png))
  = [Spec.StaleSelection].
Proof.
  apply (X24_selection_after_cancel_is_stale
           Sample.env_ok 7 "jpg" Sample.world_png eq_refl eq_refl).
Defined.

End TempFileFacts.

Section RoutingFacts.
Import Converter Bot.

(** X25: every button the bot puts on a keyboard is handled.  The router
    sends the data of the cancel button to [handle_cancel] and the data of
    every format button to [handle_conversion]; no generated button falls
    through to the handler of unknown callbacks. *)
Theorem X25_generated_buttons_are_routed
    (V : env) (uid : Z) (e file_id : string) (kb : Inline.keyboard)
    (b : Inline.button) :
  Inline.create_format_keyboard e file_id = Some kb ->
  In b (Inline.buttons kb) ->
  (Inline.callback_data b = "cancel"
   /\ on_callback V uid (Inline.callback_data b) = handle_cancel V uid)
  \/ (exists t, In t (Inline.keyboard_targets kb)
        /\ Inline.callback_data b = "cvt:" ++ t
        /\ on_callback V uid (Inline.callback_data b)
           = handle_conversion V uid ("cvt:" ++ t)).
Proof.
  intros Hkb Hb.
  destruct (create_format_keyboard_some e file_id kb Hkb)
    as (ty & opts & _ & _ & Heq & Htargets).
  rewrite Htargets. rewrite Heq in Hb. cbn [Inline.buttons] in Hb.
  apply in_app_or in Hb. destruct Hb as [Hb | [<- | []]].
  - right. apply in_map_iff in Hb. destruct Hb as (t & <- & Ht).
    exists t. cbn [Inline.format_button Inline.callback_data].
    repeat split; [exact Ht | apply route_cvt].
  - left. split; reflexivity.
Qed.

Lemma X25_generated_buttons_witness :
  on_callback Sample.env_ok 7 "cancel" = handle_cancel Sample.env_ok 7.
Proof.
  assert (Hin : In Inline.cancel_button
                    (Inline.buttons (Sample.keyboard_for "ogg")))
    by (vm_compute; intuition).
  destruct (X25_generated_buttons_are_routed
              Sample.env_ok 7 "ogg" "" (Sample.keyboard_for "ogg")
              Inline.cancel_button eq_refl Hin)
    as [[_ H] | (t & _ & Hd & _)].
  - exact H.
  - destruct t; discriminate Hd.
Defined.

(** X26: one attempt hands at most one call to an engine, and that call
    writes to the output path of the job. *)
Theorem X26_attempt_runs_at_most_one_engine_call
    (V : env) (uid : Z) (j : job) (w : world) :
  engine_log (machine (fst (conversion_attempt V uid j w)))
  = engine_log (machine w)
  \/ exists c,
       engine_log (machine (fst (conversion_attempt V uid j w)))
       = (engine_log (machine w) ++ [c])%list
       /\ Spec.call_output c = output_path j.
Proof.
  run_attempt; try (left; reflexivity);
    match goal with
    | H : convert_file ?E ?i ?o ?s ?t ?d = (?h, _) |- _ =>
        let L := fresh in
        pose proof (convert_file_log E i o s t d) as L;
        rewrite H in L; cbn [fst engine_log] in L; exact L
    end.
Qed.

(** X27: a document that comes without a file name is always refused.
    [handle_document] names it [document], a name without extension, so
    within the size limit it is answered with the unsupported-format notice
    and no request is stored. *)
Theorem X27_unnamed_document_is_unsupported
    (V : env) (uid : Z) (file_id : string) (file_size : option Z) (w : world) :
  or_int file_size 0 <= MAX_FILE_SIZE V ->
  Spec.reported (handle_document V uid file_id None file_size) w
  = [Spec.UnsupportedFormat]
  /\ storage (fst (handle_document V uid file_id None file_size w)) = storage w.
Proof.
  intros Hle. unfold handle_document, Spec.reported, Spec.calls_of.
  rewrite process_file_small by exact Hle.
  rewrite classify_unsupported by (vm_compute; intuition discriminate).
  cbn [or_str].
  fold (Spec.calls_of (call V (MessageAnswer uid (Unsupported "document") None)) w).
  rewrite calls_of_call. split; reflexivity.
Qed.

Lemma X27_unnamed_document_witness :
  Spec.reported (handle_document Sample.env_ok 7 "BQACAgIAAxkBAAIB" None (Some 1024))
                Sample.world_empty
  = [Spec.UnsupportedFormat].
Proof.
  apply (X27_unnamed_document_is_unsupported
           Sample.env_ok 7 "BQACAgIAAxkBAAIB" (Some 1024) Sample.world_empty).
  vm_compute. discriminate.
Defined.

Lemma lstrip_dot_idem (s : string) : lstrip "." (lstrip "." s) = lstrip "." s.
Proof.
  induction s as [| c s IH]; [reflexivity |].
  cbn [lstrip]. destruct (Ascii.eqb "." c) eqn:Hc; [exact IH |].
  cbn [lstrip]. now rewrite Hc.
Qed.

(** X28: the extension [process_file] stores is already in the form the
    registry works with (lower case, no leading dot): normalizing it again,
    as the keyboard functions and [get_file_type] do, changes nothing, so
    the type found when the file arrives is the type found when the
    conversion is dispatched. *)
Theorem X28_stored_extension_is_normalized (file_name : string) :
  Spec.normalized (Spec.extension_of file_name) = Spec.extension_of file_name
  /\ Inline.get_file_type (Spec.extension_of file_name)
     = dict_get Inline.FILE_TYPE_MAP (Spec.extension_of file_name).
Proof.
  assert (H : Spec.normalized (Spec.extension_of file_name)
              = Spec.extension_of file_name).
  { unfold Spec.normalized, Spec.extension_of.
    destruct (String.eqb file_name ""); [reflexivity |].
    now rewrite <- lower_lstrip_dot, lstrip_dot_idem, lower_lstrip_dot, lower_idem. }
  split; [exact H |].
  rewrite <- H. apply get_file_type_normalized.
Qed.

End RoutingFacts.
